(** * Personal finance tracker: a shallow embedding of the data layer

    The development follows the TypeScript sources:

    - [JS]            the parts of the JavaScript runtime the code relies on
                      (numbers, [Number], [parseFloat], [Date]);
    - [Firestore]     [src/lib/firestore-service.ts];
    - [Eff]           the effects of the client code (backend calls, toasts,
                      thrown errors);
    - [DatabaseContext], [TransactionForm], [TransactionsTable],
      [AIInsights], [BudgetSummary]   the React components and providers;
    - [Spec]          the properties stated of that code, in the terms of
                      its description;
    - [Examples]      concrete stores and inputs.

    The theorems follow, grouped by the part of the code they are about.

    Modelling conventions.  A JavaScript [number] is an exact rational or one
    of the three special values; rounding, overflow and underflow of IEEE
    doubles and the sign of zero are not represented.  Amounts held by the
    stores are finite.  A [Date] is its time value in milliseconds, local
    time being UTC.  Strings are sequences of 8-bit code units. *)

From Stdlib Require Import QArith Qcanon Qcabs Qround ZArith.
From Stdlib Require Import List String Ascii Bool Lia.
From Stdlib Require Import OrderedTypeEx DecimalString Permutation Sorted.
Import ListNotations.

Set Implicit Arguments.
Set Warnings "-register-all".

(* ===================================================================== *)
(** ** The JavaScript runtime                                              *)
(* ===================================================================== *)

Module JS.

Local Open Scope Qc_scope.

(** [number]: finite values are exact. *)
Inductive number : Type :=
| Fin (q : Qc)
| PInf
| NInf
| NaN.

Definition Qc_ltb (x y : Qc) : bool :=
  match x ?= y with Lt => true | _ => false end.

Definition Qc_eqb (x y : Qc) : bool :=
  match x ?= y with Eq => true | _ => false end.

Definition Qc_leb (x y : Qc) : bool :=
  match x ?= y with Gt => false | _ => true end.

Definition of_Z (z : Z) : Qc := Q2Qc (inject_Z z).

Definition hundred : Qc := of_Z 100.

(** [isNaN] applied to a number. *)
Definition isNaN (n : number) : bool :=
  match n with NaN => true | _ => false end.

(** [a + b] *)
Definition add (a b : number) : number :=
  match a, b with
  | NaN, _ | _, NaN => NaN
  | Fin x, Fin y => Fin (x + y)
  | PInf, NInf | NInf, PInf => NaN
  | PInf, _ | _, PInf => PInf
  | NInf, _ | _, NInf => NInf
  end.

(** [-a] *)
Definition neg (a : number) : number :=
  match a with
  | Fin x => Fin (- x)
  | PInf => NInf
  | NInf => PInf
  | NaN => NaN
  end.

(** [a - b] *)
Definition sub (a b : number) : number := add a (neg b).

(** [Math.abs] *)
Definition abs (a : number) : number :=
  match a with
  | Fin x => Fin (Qcabs x)
  | PInf | NInf => PInf
  | NaN => NaN
  end.

(** The sign of a number: [Lt] negative, [Eq] zero, [Gt] positive. *)
Definition sign (a : number) : option comparison :=
  match a with
  | Fin x => Some (x ?= 0)
  | PInf => Some Gt
  | NInf => Some Lt
  | NaN => None
  end.

Definition signed_inf (s : comparison) : number :=
  match s with Lt => NInf | _ => PInf end.

Definition sign_mul (s t : comparison) : comparison :=
  match s, t with
  | Eq, _ | _, Eq => Eq
  | Lt, Lt | Gt, Gt => Gt
  | _, _ => Lt
  end.

(** [a * b]: an infinity times zero is [NaN]. *)
Definition mul (a b : number) : number :=
  match a, b with
  | Fin x, Fin y => Fin (x * y)
  | _, _ =>
      match sign a, sign b with
      | Some s, Some t =>
          match sign_mul s t with
          | Eq => NaN
          | st => signed_inf st
          end
      | _, _ => NaN
      end
  end.

(** [a / b]: a finite nonzero value over zero is an infinity, [0 / 0] and
    [Infinity / Infinity] are [NaN], a finite value over an infinity is
    zero. *)
Definition div (a b : number) : number :=
  match a, b with
  | NaN, _ | _, NaN => NaN
  | Fin x, Fin y =>
      if Qc_eqb y 0
      then match x ?= 0 with Eq => NaN | s => signed_inf s end
      else Fin (x / y)
  | Fin _, _ => Fin 0
  | _, Fin y =>
      match sign a, (y ?= 0) with
      | Some s, Lt => signed_inf (sign_mul s Lt)
      | Some s, _ => signed_inf s
      | None, _ => NaN
      end
  | _, _ => NaN
  end.

(** [a < b]: false as soon as an operand is [NaN]. *)
Definition ltb (a b : number) : bool :=
  match a, b with
  | NaN, _ | _, NaN => false
  | Fin x, Fin y => Qc_ltb x y
  | NInf, NInf | PInf, _ | _, NInf => false
  | NInf, _ | _, PInf => true
  end.

(** [a > b] *)
Definition gtb (a b : number) : bool := ltb b a.

(** [a <= b] *)
Definition leb (a b : number) : bool :=
  match a, b with
  | NaN, _ | _, NaN => false
  | Fin x, Fin y => Qc_leb x y
  | NInf, _ | _, PInf => true
  | PInf, _ | _, NInf => false
  end.

(** [a === b] on numbers. *)
Definition eqb (a b : number) : bool :=
  match a, b with
  | Fin x, Fin y => Qc_eqb x y
  | PInf, PInf | NInf, NInf => true
  | _, _ => false
  end.


(** *** Strings to numbers *)

Local Open Scope Z_scope.

Definition code (c : ascii) : Z := Z.of_nat (nat_of_ascii c).

(** White space (the ASCII part of it). *)
Definition is_ws (c : ascii) : bool :=
  let n := code c in ((9 <=? n) && (n <=? 13)) || (n =? 32).

(** The value of [c] as a digit in base [radix], when it is one. *)
Definition digit_val (radix : Z) (c : ascii) : option Z :=
  let n := code c in
  let v := if (48 <=? n) && (n <=? 57) then n - 48
           else if (97 <=? n) && (n <=? 122) then n - 87
           else if (65 <=? n) && (n <=? 90) then n - 55
           else radix in
  if v <? radix then Some v else None.

Fixpoint skip_ws (s : list ascii) : list ascii :=
  match s with
  | c :: r => if is_ws c then skip_ws r else s
  | [] => []
  end.

Definition trim (s : list ascii) : list ascii :=
  rev (skip_ws (rev (skip_ws s))).

(** The longest run of base-[radix] digits at the head of [s]: its value
    (continuing [acc]), its length (continuing [cnt]) and what follows. *)
Fixpoint read_digits (radix : Z) (s : list ascii) (acc : Z) (cnt : nat)
  : Z * nat * list ascii :=
  match s with
  | c :: r =>
      match digit_val radix c with
      | Some v => read_digits radix r (acc * radix + v) (S cnt)
      | None => (acc, cnt, s)
      end
  | [] => (acc, cnt, [])
  end.

Fixpoint strip_prefix (p s : list ascii) : option (list ascii) :=
  match p, s with
  | [], _ => Some s
  | a :: p', b :: s' => if Ascii.eqb a b then strip_prefix p' s' else None
  | _ :: _, [] => None
  end.

(** [m * 10^e] as an exact rational. *)
Definition scale10 (m e : Z) : Qc :=
  if 0 <=? e then of_Z (m * 10 ^ e)
  else Q2Qc (Qmake m (Z.to_pos (10 ^ (- e)))).

(** An optional exponent part [e], a sign and digits, at the head of [s]. *)
Definition read_exponent (s : list ascii) : Z * list ascii :=
  match s with
  | c :: r =>
      if (code c =? 101) || (code c =? 69) then
        let '(sg, r1) :=
          match r with
          | d :: r' => if code d =? 45 then (-1, r')
                       else if code d =? 43 then (1, r') else (1, r)
          | [] => (1, r)
          end in
        let '(e, n, r2) := read_digits 10 r1 0 O in
        match n with O => (0, s) | _ => (sg * e, r2) end
      else (0, s)
  | [] => (0, s)
  end.

(** The longest prefix of [s] that is a [StrUnsignedDecimalLiteral]. *)
Definition read_unsigned_decimal (s : list ascii)
  : option (number * list ascii) :=
  match strip_prefix (list_ascii_of_string "Infinity") s with
  | Some r => Some (PInf, r)
  | None =>
      let '(ip, ni, r1) := read_digits 10 s 0 O in
      let '(m, nf, r2) :=
        match r1 with
        | c :: r =>
            if code c =? 46 then
              let '(m', nf', r') := read_digits 10 r ip O in
              match ni, nf' with
              | O, O => (ip, O, r1)
              | _, _ => (m', nf', r')
              end
            else (ip, O, r1)
        | [] => (ip, O, r1)
        end in
      match ni, nf with
      | O, O => None
      | _, _ =>
          let '(e, r3) := read_exponent r2 in
          Some (Fin (scale10 m (e - Z.of_nat nf)), r3)
      end
  end.

(** The longest prefix of [s] that is a [StrDecimalLiteral]. *)
Definition read_decimal (s : list ascii) : option (number * list ascii) :=
  match s with
  | c :: r =>
      if code c =? 45 then
        match read_unsigned_decimal r with
        | Some (v, r') => Some (neg v, r')
        | None => None
        end
      else if code c =? 43 then read_unsigned_decimal r
      else read_unsigned_decimal s
  | [] => None
  end.

(** A [NonDecimalIntegerLiteral]: [0x], [0o] or [0b] and digits. *)
Definition read_non_decimal (s : list ascii) : option (number * list ascii) :=
  match s with
  | z :: p :: r =>
      let radix :=
        let n := code p in
        if (n =? 120) || (n =? 88) then 16
        else if (n =? 111) || (n =? 79) then 8
        else if (n =? 98) || (n =? 66) then 2 else 0 in
      if (code z =? 48) && (0 <? radix) then
        let '(v, n, r') := read_digits radix r 0 O in
        match n with O => None | _ => Some (Fin (of_Z v), r') end
      else None
  | _ => None
  end.

(** [Number(s)] for a string [s]: the whole trimmed string has to be a
    numeric literal; the empty string is [0]. *)
Definition Number (s : string) : number :=
  match trim (list_ascii_of_string s) with
  | [] => Fin (of_Z 0)
  | t =>
      match read_non_decimal t with
      | Some (v, []) => v
      | _ =>
          match read_decimal t with
          | Some (v, []) => v
          | _ => NaN
          end
      end
  end.

(** [Number.parseFloat(s)]: the longest decimal literal after leading
    white space. *)
Definition parseFloat (s : string) : number :=
  match read_decimal (skip_ws (list_ascii_of_string s)) with
  | Some (v, _) => v
  | None => NaN
  end.

(** [Number.parseInt(s)] without a radix. *)
Definition parseInt (s : string) : number :=
  let t := skip_ws (list_ascii_of_string s) in
  let '(sg, t1) :=
    match t with
    | c :: r => if code c =? 45 then (-1, r)
                else if code c =? 43 then (1, r) else (1, t)
    | [] => (1, t)
    end in
  let '(radix, t2) :=
    match t1 with
    | z :: p :: r =>
        if (code z =? 48) && ((code p =? 120) || (code p =? 88))
        then (16, r) else (10, t1)
    | _ => (10, t1)
    end in
  let '(v, n, _) := read_digits radix t2 0 O in
  match n with O => NaN | _ => Fin (of_Z (sg * v)) end.

(** *** Strings *)

Definition lower (c : ascii) : ascii :=
  let n := code c in
  if (65 <=? n) && (n <=? 90) then ascii_of_nat (Z.to_nat (n + 32)) else c.

(** [s.toLowerCase()] *)
Fixpoint toLowerCase (s : string) : string :=
  match s with
  | EmptyString => EmptyString
  | String c r => String (lower c) (toLowerCase r)
  end.

Fixpoint starts_with (p s : string) : bool :=
  match p, s with
  | EmptyString, _ => true
  | String a p', String b s' => Ascii.eqb a b && starts_with p' s'
  | String _ _, EmptyString => false
  end.

(** [s.includes(p)] *)
Fixpoint includes (s p : string) : bool :=
  starts_with p s
  || match s with
     | EmptyString => false
     | String _ r => includes r p
     end.

(** *** Dates *)

(** The time value of a [Date], in milliseconds since the epoch. *)
Definition Date := Z.

Definition msPerDay : Z := 86400000.

(** Day number of the civil date [y]-[m]-[d], [m] in 1..12. *)
Definition days_from_civil (y m d : Z) : Z :=
  let y' := if m <=? 2 then y - 1 else y in
  let era := y' / 400 in
  let yoe := y' - era * 400 in
  let doy := (153 * (if 2 <? m then m - 3 else m + 9) + 2) / 5 + d - 1 in
  let doe := yoe * 365 + yoe / 4 - yoe / 100 + doy in
  era * 146097 + doe - 719468.

(** The civil date (year, month in 1..12, day) of a day number. *)
Definition civil_from_days (z : Z) : Z * Z * Z :=
  let z' := z + 719468 in
  let era := z' / 146097 in
  let doe := z' - era * 146097 in
  let yoe := (doe - doe / 1460 + doe / 36524 - doe / 146096) / 365 in
  let doy := doe - (365 * yoe + yoe / 4 - yoe / 100) in
  let mp := (5 * doy + 2) / 153 in
  let d := doy - (153 * mp + 2) / 5 + 1 in
  let m := if mp <? 10 then mp + 3 else mp - 9 in
  (yoe + era * 400 + (if m <=? 2 then 1 else 0), m, d).

Definition getFullYear (t : Date) : Z :=
  let '(y, _, _) := civil_from_days (t / msPerDay) in y.

Definition getMonth (t : Date) : Z :=
  let '(_, m, _) := civil_from_days (t / msPerDay) in m - 1.

Definition getDate (t : Date) : Z :=
  let '(_, _, d) := civil_from_days (t / msPerDay) in d.

Definition getDay (t : Date) : Z := (t / msPerDay + 4) mod 7.

(** [MakeDay]: months outside 0..11 carry into the year, days outside the
    month carry into the neighbouring months. *)
Definition MakeDay (year month date : Z) : Z :=
  days_from_civil (year + month / 12) (month mod 12 + 1) 1 + date - 1.

(** [new Date(year, month, date, hours, minutes, seconds, ms)] *)
Definition newDate (year month date hours minutes seconds ms : Z) : Date :=
  let yr := if (0 <=? year) && (year <=? 99) then 1900 + year else year in
  MakeDay yr month date * msPerDay
  + hours * 3600000 + minutes * 60000 + seconds * 1000 + ms.

(** [t.setDate(date)] *)
Definition setDate (t : Date) (date : Z) : Date :=
  MakeDay (getFullYear t) (getMonth t) date * msPerDay + t mod msPerDay.

(** [startOfMonth], [endOfMonth] and [subMonths] of date-fns. *)
Definition startOfMonth (t : Date) : Date :=
  newDate (getFullYear t) (getMonth t) 1 0 0 0 0.

Definition endOfMonth (t : Date) : Date :=
  newDate (getFullYear t) (getMonth t + 1) 0 23 59 59 999.

Definition subMonths (t : Date) (amount : Z) : Date :=
  let endOfDesiredMonth :=
    MakeDay (getFullYear t) (getMonth t - amount + 1) 0 * msPerDay
    + t mod msPerDay in
  if getDate endOfDesiredMonth <=? getDate t then endOfDesiredMonth
  else MakeDay (getFullYear endOfDesiredMonth) (getMonth endOfDesiredMonth)
               (getDate t) * msPerDay + t mod msPerDay.

(** [t.toISOString()] is kept as the time value: ISO strings of valid
    dates order as their time values do. *)
Definition toISOString (t : Date) : Z := t.

(** *** Untyped values

    What flows through code typed [any]: scalars, arrays and objects
    (objects as their list of own properties, in order). *)

Inductive value : Type :=
| VUndefined
| VNull
| VBool (b : bool)
| VNum (n : number)
| VStr (s : string)
| VDate (t : Date)
| VArr (items : list value)
| VObj (props : list (string * value)).

Fixpoint assoc {A : Type} (k : string) (l : list (string * A)) : option A :=
  match l with
  | [] => None
  | (k', v) :: r => if String.eqb k k' then Some v else assoc k r
  end.

(** [v.k]; reading a property of a scalar gives [undefined].  (Reading one
    of [undefined] or [null] throws: see [Eff.prop].) *)
Definition get (k : string) (v : value) : value :=
  match v with
  | VObj props => match assoc k props with Some x => x | None => VUndefined end
  | _ => VUndefined
  end.

(** Truthiness. *)
Definition truthy (v : value) : bool :=
  match v with
  | VUndefined | VNull => false
  | VBool b => b
  | VNum (Fin q) => negb (Qc_eqb q (of_Z 0))
  | VNum NaN => false
  | VNum _ => true
  | VStr s => negb (String.eqb s EmptyString)
  | VDate _ | VArr _ | VObj _ => true
  end.

(** [a || b] *)
Definition or_else (a b : value) : value := if truthy a then a else b.

(** [a === b] on scalars; two objects or arrays built separately are never
    identical. *)
Definition strict_eq (a b : value) : bool :=
  match a, b with
  | VUndefined, VUndefined | VNull, VNull => true
  | VBool x, VBool y => Bool.eqb x y
  | VNum x, VNum y => eqb x y
  | VStr x, VStr y => String.eqb x y
  | _, _ => false
  end.

(** [Number(v)] *)
Definition toNumber (v : value) : number :=
  match v with
  | VUndefined => NaN
  | VNull => Fin (of_Z 0)
  | VBool b => Fin (of_Z (if b then 1 else 0))
  | VNum n => n
  | VStr s => Number s
  | VDate t => Fin (of_Z t)
  | VArr [] => Fin (of_Z 0)
  | VArr _ | VObj _ => NaN
  end.

(** [String(v)], as far as the code needs it: a number that is not an
    integer prints as its fraction. *)
Definition String_ (v : value) : string :=
  match v with
  | VUndefined => "undefined"
  | VNull => "null"
  | VBool b => if b then "true" else "false"
  | VNum (Fin q) =>
      let n := NilZero.string_of_int (Z.to_int (Qnum q)) in
      match Qden q with
      | xH => n
      | d => n ++ "/" ++ NilZero.string_of_uint (Pos.to_uint d)
      end
  | VNum PInf => "Infinity"
  | VNum NInf => "-Infinity"
  | VNum NaN => "NaN"
  | VStr s => s
  | VDate t => NilZero.string_of_int (Z.to_int t)
  | VArr _ => "[object Array]"
  | VObj _ => "[object Object]"
  end%string.

Definition opt_value {A : Type} (f : A -> value) (o : option A) : value :=
  match o with Some a => f a | None => VUndefined end.

Definition null_value {A : Type} (f : A -> value) (o : option A) : value :=
  match o with Some a => f a | None => VNull end.

End JS.


(* ===================================================================== *)
(** ** The two backends and the effects of client code                    *)
(* ===================================================================== *)

Module Store.
Import JS.

(** *** The document store: typed documents of [firestore-service.ts] *)

Record Transaction : Type := {
  tx_id : option string;
  tx_userId : string;
  tx_title : string;
  tx_amount : Qc;
  tx_categoryId : string;
  tx_transactionDate : Date;
  tx_notes : option string;
  tx_createdAt : option Date;
  tx_updatedAt : option Date }.

Inductive CategoryType : Type := type_income | type_expense.

Record Category : Type := {
  cat_id : option string;
  cat_userId : string;
  cat_name : string;
  cat_icon : option string;
  cat_color : option string;
  cat_type : CategoryType;
  cat_isDefault : option bool }.

Inductive Period : Type := daily | weekly | monthly | yearly.

Record BudgetGoal : Type := {
  goal_id : option string;
  goal_userId : string;
  goal_categoryId : string;
  goal_amount : Qc;
  goal_period : Period;
  goal_startDate : Date;
  goal_endDate : option Date;
  goal_createdAt : option Date;
  goal_updatedAt : option Date }.

Record UserProfile : Type := {
  profile_id : string;
  profile_email : string;
  profile_fullName : option string;
  profile_avatarUrl : option string;
  profile_createdAt : option Date;
  profile_updatedAt : option Date }.

(** A document of a collection: its id and its data.  A
    [QueryDocumentSnapshot] is such a pair. *)
Record Doc (A : Type) : Type := { doc_id : string; doc_data : A }.

Record FirestoreDb : Type := {
  users : list (Doc UserProfile);
  categories : list (Doc Category);
  transactions : list (Doc Transaction);
  budgetGoals : list (Doc BudgetGoal) }.

(** The queries the service builds, by collection. *)
Record TxQuery : Type := {
  q_userId : string;                        (* where userId == *)
  q_categoryId : option string;             (* where categoryId == *)
  q_from : option Date;                     (* where transactionDate >= *)
  q_to : option Date;                       (* where transactionDate <= *)
  q_limit : option nat;                     (* limit *)
  q_startAfter : option (Doc Transaction) } (* startAfter *).

Record GoalQuery : Type := {
  gq_userId : string;
  gq_categoryId : option string;
  gq_period : option Period }.

(** Calls of the document store's SDK. *)
Inductive FsCall : Type :=
| GetDocsTransactions (q : TxQuery)
| GetDocsCategories (userId : string)
| GetDocsBudgetGoals (q : GoalQuery)
| GetDoc (collection id : string)
| AddDoc (collection : string) (data : value)
| UpdateDoc (collection id : string) (data : value)
| DeleteDoc (collection id : string).

(** *** The relational store: requests of the query builder *)

Inductive SbVerb : Type :=
| Select (columns : string)
| Insert (row : value)
| Update (row : value)
| Delete.

Inductive SbModifier : Type :=
| Order (column : value) (ascending : bool)
| Gte (column : string) (v : value)
| Lte (column : string) (v : value)
| Eq_ (column : string) (v : value)
| In_ (column : string) (vs : list value)
| Ilike (column pattern : string)
| Limit (n : value)
| SelectBack
| Single.

Record SbRequest : Type := {
  sb_table : string;
  sb_verb : SbVerb;
  sb_modifiers : list SbModifier }.

Record SbFailure : Type := { sb_message : string; sb_code : string }.

(** [{ data, error }]; [error] is [null] when the request went through. *)
Record SbResponse : Type := { data : value; error : option SbFailure }.

(** *** Thrown values, toasts, the world *)

Inductive exn : Type :=
| TypeError (message : string)
| Error (message : string)
| SbError (failure : SbFailure)     (* the [error] of a response *)
| FsError (message : string)        (* a rejected SDK call *).

Definition message (e : exn) : string :=
  match e with
  | TypeError m | Error m | FsError m => m
  | SbError f => sb_message f
  end.

Inductive Variant : Type := default | destructive.

Record Toast : Type := {
  toast_title : string;
  toast_description : string;
  toast_variant : Variant }.

Inductive BackendCall : Type :=
| Firestore (c : FsCall)
| Supabase (r : SbRequest).

(** What client code runs against: the document store, whether its SDK
    currently rejects calls and the id it gives to an added document, the
    relational store as the answers of its client, the clock, the next
    result of [Math.random], and what the code has emitted so far.  A
    write is observed as the call that carries it; the collections are
    those the reads see. *)
Record World : Type := {
  fdb : FirestoreDb;
  fs_fault : option string;
  fs_auto_id : string;
  supabase : SbRequest -> SbResponse;
  now : Date;
  random : Qc;
  isLoading : bool;
  calls : list BackendCall;
  toasts : list Toast }.

Definition log_call (c : BackendCall) (w : World) : World :=
  {| fdb := fdb w; fs_fault := fs_fault w; fs_auto_id := fs_auto_id w;
     supabase := supabase w; now := now w; random := random w;
     isLoading := isLoading w;
     calls := calls w ++ [c]; toasts := toasts w |}.

Definition log_toast (t : Toast) (w : World) : World :=
  {| fdb := fdb w; fs_fault := fs_fault w; fs_auto_id := fs_auto_id w;
     supabase := supabase w; now := now w; random := random w;
     isLoading := isLoading w;
     calls := calls w; toasts := toasts w ++ [t] |}.

Definition set_loading (b : bool) (w : World) : World :=
  {| fdb := fdb w; fs_fault := fs_fault w; fs_auto_id := fs_auto_id w;
     supabase := supabase w; now := now w; random := random w;
     isLoading := b;
     calls := calls w; toasts := toasts w |}.

End Store.

Module Eff.
Import JS Store.

Inductive outcome (A : Type) : Type :=
| Ok (a : A)
| Throw (e : exn).
Arguments Throw {A} e.

(** A computation of client code. *)
Definition M (A : Type) : Type := World -> outcome A * World.

Definition ret {A : Type} (a : A) : M A := fun w => (Ok a, w).

Definition bind {A B : Type} (c : M A) (k : A -> M B) : M B :=
  fun w =>
    match c w with
    | (Ok a, w') => k a w'
    | (Throw e, w') => (Throw e, w')
    end.

Definition throw {A : Type} (e : exn) : M A := fun w => (Throw e, w).

(** [try { c } catch (e) { h e }] *)
Definition try_catch {A : Type} (c : M A) (h : exn -> M A) : M A :=
  fun w =>
    match c w with
    | (Ok a, w') => (Ok a, w')
    | (Throw e, w') => h e w'
    end.

(** [try { c } finally { f }], for an [f] that completes normally. *)
Definition try_finally {A : Type} (c : M A) (f : M unit) : M A :=
  fun w =>
    match c w with
    | (r, w') =>
        match f w' with
        | (Ok _, w'') => (r, w'')
        | (Throw e, w'') => (Throw e, w'')
        end
    end.

Declare Scope eff_scope.
Delimit Scope eff_scope with eff.
Notation "x <- c ;; k" := (bind c (fun x => k))
  (at level 61, c at next level, right associativity) : eff_scope.
Notation "c ;; k" := (bind c (fun _ => k))
  (at level 61, right associativity) : eff_scope.
Notation "' p <- c ;; k" := (bind c (fun x => match x with p => k end))
  (at level 61, p pattern, c at next level, right associativity) : eff_scope.
Local Open Scope eff_scope.

Definition toast (t : Toast) : M unit := fun w => (Ok tt, log_toast t w).

Definition get_now : M Date := fun w => (Ok (now w), w).

Definition get_random : M Qc := fun w => (Ok (random w), w).

Definition setIsLoading (b : bool) : M unit :=
  fun w => (Ok tt, set_loading b w).

(** A call of the document store's SDK over the current collections: it is
    logged, and rejected when the SDK is at fault. *)
Definition firestore_call {A : Type} (c : FsCall) (answer : FirestoreDb -> A)
  : M A :=
  fun w =>
    let w' := log_call (Firestore c) w in
    match fs_fault w with
    | Some m => (Throw (FsError m), w')
    | None => (Ok (answer (fdb w)), w')
    end.

Definition get_auto_id : M string := fun w => (Ok (fs_auto_id w), w).

(** Objects of functions, called by name: [obj.name(args)]. *)
Definition method : Type := list value -> M value.
Definition object : Type := list (string * method).

Definition invoke (obj : object) (name : string) (args : list value)
  : M value :=
  match assoc name obj with
  | Some m => m args
  | None => throw (TypeError (name ++ " is not a function"))
  end.

Definition arg (i : nat) (args : list value) : value := nth i args VUndefined.

(** [await] of a request of the relational store's client. *)
Definition supabase_call (r : SbRequest) : M SbResponse :=
  fun w => (Ok (supabase w r), log_call (Supabase r) w).

(** [v.k] in a position where [v] may be [undefined] or [null]. *)
Definition prop (k : string) (v : value) : M value :=
  match v with
  | VUndefined | VNull =>
      throw (TypeError ("Cannot read properties of undefined (reading '"
                          ++ k ++ "')"))
  | _ => ret (get k v)
  end.

(** [await Promise.all(cs)] for computations started in order: every one
    of them runs; the first failure, if any, is the result. *)
Fixpoint all {A : Type} (cs : list (M A)) : M (list A) :=
  match cs with
  | [] => ret []
  | c :: r =>
      fun w =>
        let '(ra, w') := c w in
        let '(rr, w'') := all r w' in
        (match ra, rr with
         | Ok a, Ok l => Ok (a :: l)
         | Throw e, _ => Throw e
         | Ok _, Throw e => Throw e
         end, w'')
  end.

Fixpoint foldM {S A : Type} (body : S -> A -> M S) (l : list A) (init : S)
  : M S :=
  match l with
  | [] => ret init
  | a :: r => s <- body init a ;; foldM body r s
  end.

(** [v.forEach(...)] with the variables the callback updates as [S]. *)
Definition forEach {S : Type} (name : string) (v : value)
           (body : S -> value -> M S) (init : S) : M S :=
  match v with
  | VArr items => foldM body items init
  | VUndefined | VNull =>
      throw (TypeError ("Cannot read properties of undefined (reading 'forEach')"))
  | _ => throw (TypeError (name ++ ".forEach is not a function"))
  end.

(** [l.find(p)] *)
Fixpoint find (p : value -> M bool) (l : list value) : M (option value) :=
  match l with
  | [] => ret None
  | x :: r => b <- p x ;; if b then ret (Some x) else find p r
  end.

Fixpoint mapM {A B : Type} (f : A -> M B) (l : list A) : M (list B) :=
  match l with
  | [] => ret []
  | a :: r => b <- f a ;; bs <- mapM f r ;; ret (b :: bs)
  end.

End Eff.

(* ===================================================================== *)
(** ** [src/lib/firestore-service.ts]                                     *)
(* ===================================================================== *)

Module Firestore.
Import JS Store Eff.
Local Open Scope eff_scope.
Local Open Scope string_scope.

(** *** The document store's query engine, on the queries of the service *)

(** [orderBy("transactionDate", "desc")]: later dates first; documents of
    one date by descending id. *)
Definition precedes (a b : Doc Transaction) : bool :=
  let ta := tx_transactionDate (doc_data a) in
  let tb := tx_transactionDate (doc_data b) in
  (tb <? ta)%Z || ((ta =? tb)%Z && String.ltb (doc_id b) (doc_id a)).

Fixpoint insert_doc (d : Doc Transaction) (l : list (Doc Transaction))
  : list (Doc Transaction) :=
  match l with
  | [] => [d]
  | x :: r => if precedes x d then x :: insert_doc d r else d :: l
  end.

Definition order_docs (l : list (Doc Transaction)) : list (Doc Transaction) :=
  fold_right insert_doc [] l.

Definition opt_test {A : Type} (o : option A) (p : A -> bool) : bool :=
  match o with Some a => p a | None => true end.

Definition tx_matches (q : TxQuery) (d : Doc Transaction) : bool :=
  let t := doc_data d in
  String.eqb (tx_userId t) (q_userId q)
  && opt_test (q_categoryId q) (String.eqb (tx_categoryId t))
  && opt_test (q_from q) (fun from => (from <=? tx_transactionDate t)%Z)
  && opt_test (q_to q) (fun to => (tx_transactionDate t <=? to)%Z).

(** The documents a query selects, in order, before cursor and limit. *)
Definition tx_selected (q : TxQuery) (db : FirestoreDb)
  : list (Doc Transaction) :=
  order_docs (filter (tx_matches q) (transactions db)).

(** [getDocs] of a transactions query: the cursor applies before the
    limit. *)
Definition run_tx_query (q : TxQuery) (db : FirestoreDb)
  : list (Doc Transaction) :=
  let from_cursor :=
    match q_startAfter q with
    | Some c => filter (precedes c) (tx_selected q db)
    | None => tx_selected q db
    end in
  match q_limit q with
  | Some n => firstn n from_cursor
  | None => from_cursor
  end.

Definition Period_eqb (a b : Period) : bool :=
  match a, b with
  | daily, daily | weekly, weekly | monthly, monthly | yearly, yearly => true
  | _, _ => false
  end.

Definition run_goal_query (q : GoalQuery) (db : FirestoreDb)
  : list (Doc BudgetGoal) :=
  filter (fun d =>
            let g := doc_data d in
            String.eqb (goal_userId g) (gq_userId q)
            && opt_test (gq_categoryId q) (String.eqb (goal_categoryId g))
            && opt_test (gq_period q) (Period_eqb (goal_period g)))
         (budgetGoals db).

Fixpoint insert_category (d : Doc Category) (l : list (Doc Category))
  : list (Doc Category) :=
  match l with
  | [] => [d]
  | x :: r =>
      if String.leb (cat_name (doc_data x)) (cat_name (doc_data d))
      then x :: insert_category d r else d :: l
  end.

(** [where("userId", "==", userId), orderBy("name")] *)
Definition run_category_query (userId : string) (db : FirestoreDb)
  : list (Doc Category) :=
  fold_right insert_category []
    (filter (fun d => String.eqb (cat_userId (doc_data d)) userId)
            (categories db)).

Fixpoint find_doc {A : Type} (id : string) (l : list (Doc A))
  : option (Doc A) :=
  match l with
  | [] => None
  | d :: r => if String.eqb (doc_id d) id then Some d else find_doc id r
  end.

(** *** Documents as records of the service *)

(** [{ id: doc.id, ...data }]: an [id] stored in the data wins. *)
Definition transaction_of_doc (d : Doc Transaction) : Transaction :=
  let t := doc_data d in
  {| tx_id := match tx_id t with Some i => Some i | None => Some (doc_id d) end;
     tx_userId := tx_userId t; tx_title := tx_title t;
     tx_amount := tx_amount t; tx_categoryId := tx_categoryId t;
     tx_transactionDate := tx_transactionDate t; tx_notes := tx_notes t;
     tx_createdAt := tx_createdAt t; tx_updatedAt := tx_updatedAt t |}.

Definition category_of_doc (d : Doc Category) : Category :=
  let c := doc_data d in
  {| cat_id := match cat_id c with Some i => Some i | None => Some (doc_id d) end;
     cat_userId := cat_userId c; cat_name := cat_name c;
     cat_icon := cat_icon c; cat_color := cat_color c;
     cat_type := cat_type c; cat_isDefault := cat_isDefault c |}.

Definition budgetGoal_of_doc (d : Doc BudgetGoal) : BudgetGoal :=
  let g := doc_data d in
  {| goal_id := match goal_id g with Some i => Some i | None => Some (doc_id d) end;
     goal_userId := goal_userId g; goal_categoryId := goal_categoryId g;
     goal_amount := goal_amount g; goal_period := goal_period g;
     goal_startDate := goal_startDate g; goal_endDate := goal_endDate g;
     goal_createdAt := goal_createdAt g; goal_updatedAt := goal_updatedAt g |}.

(** [{ id: docSnap.id, ...data }] for a profile, whose [id] is required. *)
Definition profile_of_doc (d : Doc UserProfile) : UserProfile := doc_data d.

(** *** transactionService *)

Record TxOptions : Type := {
  opt_categoryId : option string;
  opt_startDate : option Date;
  opt_endDate : option Date;
  opt_limit : option nat;
  opt_lastDoc : option (Doc Transaction) }.

Definition no_options : TxOptions :=
  {| opt_categoryId := None; opt_startDate := None; opt_endDate := None;
     opt_limit := None; opt_lastDoc := None |}.

(** [if (options?.categoryId)]: an empty string is no filter. *)
Definition truthy_string (o : option string) : option string :=
  match o with
  | Some s => if String.eqb s EmptyString then None else Some s
  | None => None
  end.

(** [if (options?.limit)]: a limit of 0 is no limit. *)
Definition truthy_nat (o : option nat) : option nat :=
  match o with
  | Some O => None
  | _ => o
  end.

Definition tx_query (userId : string) (options : option TxOptions) : TxQuery :=
  let o := match options with Some o => o | None => no_options end in
  {| q_userId := userId;
     q_categoryId := truthy_string (opt_categoryId o);
     q_from := opt_startDate o;
     q_to := opt_endDate o;
     q_limit := truthy_nat (opt_limit o);
     q_startAfter := opt_lastDoc o |}.

Record Page : Type := {
  page_transactions : list Transaction;
  page_lastDoc : option (Doc Transaction) }.

Definition getTransactions (userId : string) (options : option TxOptions)
  : M Page :=
  try_catch
    (let q := tx_query userId options in
     querySnapshot <- firestore_call (GetDocsTransactions q) (run_tx_query q) ;;
     ret {| page_transactions := map transaction_of_doc querySnapshot;
            page_lastDoc := last (map Some querySnapshot) None |})
    (fun error => throw error).

Definition getTransaction (id : string) : M (option Transaction) :=
  try_catch
    (docSnap <- firestore_call (GetDoc "transactions" id)
                  (fun db => find_doc id (transactions db)) ;;
     ret (option_map transaction_of_doc docSnap))
    (fun error => throw error).

Record Summary : Type := { income : Qc; expenses : Qc; balance : Qc }.

(** The body of the [forEach] of the summary. *)
Definition summary_step (acc : Qc * Qc) (amount : Qc) : Qc * Qc :=
  let '(income, expenses) := acc in
  if Qc_ltb 0 amount
  then ((income + amount)%Qc, expenses)
  else (income, (expenses + Qcabs amount)%Qc).

Definition getTransactionSummary (userId : string) (options : option TxOptions)
  : M Summary :=
  try_catch
    (page <- getTransactions userId options ;;
     let '(income, expenses) :=
       fold_left (fun acc transaction => summary_step acc (tx_amount transaction))
                 (page_transactions page) (0%Qc, 0%Qc) in
     ret {| income := income; expenses := expenses;
            balance := (income - expenses)%Qc |})
    (fun error => throw error).

(** *** Untyped payloads *)

Definition index_key (i : nat) : string :=
  NilEmpty.string_of_uint (Nat.to_uint i).

Fixpoint indexed {A : Type} (f : A -> value) (i : nat) (l : list A)
  : list (string * value) :=
  match l with
  | [] => []
  | a :: r => (index_key i, f a) :: indexed f (S i) r
  end.

(** [{ ...v }]: the own enumerable properties of [v]. *)
Definition spread (v : value) : list (string * value) :=
  match v with
  | VObj props => props
  | VArr items => indexed (fun x => x) O items
  | VStr s => indexed (fun c => VStr (String c EmptyString)) O
                      (list_ascii_of_string s)
  | _ => []
  end.

(** [{ ...props, k: v }] *)
Fixpoint set_prop (k : string) (v : value) (props : list (string * value))
  : list (string * value) :=
  match props with
  | [] => [(k, v)]
  | (k', v') :: r =>
      if String.eqb k k' then (k, v) :: r else (k', v') :: set_prop k v r
  end.

Definition is_undefined (v : value) : bool :=
  match v with VUndefined => true | _ => false end.

(** Dates and timestamps are one type here, so that [convertTimestamps]
    changes nothing and only the removal of the [undefined] properties is
    left of [prepareForFirestore]. *)
Definition prepareForFirestore (data : value) : list (string * value) :=
  filter (fun kv => negb (is_undefined (snd kv))) (spread data).

Definition has_doc (collection id : string) (db : FirestoreDb) : bool :=
  let found {A} (l : list (Doc A)) :=
    match find_doc id l with Some _ => true | None => false end in
  if String.eqb collection "users" then found (users db)
  else if String.eqb collection "categories" then found (categories db)
  else if String.eqb collection "transactions" then found (transactions db)
  else if String.eqb collection "budgetGoals" then found (budgetGoals db)
  else false.

(** [addDoc(collection(db, c), data)]; the id of the new document. *)
Definition addDoc (c : string) (data : list (string * value)) : M string :=
  firestore_call (AddDoc c (VObj data)) (fun _ => tt) ;;
  get_auto_id.

(** [updateDoc(doc(db, c, id), data)]: fails on a missing document. *)
Definition updateDoc (c id : string) (data : list (string * value)) : M unit :=
  found <- firestore_call (UpdateDoc c id (VObj data)) (has_doc c id) ;;
  if found then ret tt else throw (FsError "not-found").

(** [deleteDoc(doc(db, c, id))] *)
Definition deleteDoc (c id : string) : M unit :=
  firestore_call (DeleteDoc c id) (fun _ => tt).

Definition with_timestamps (created : bool) (data : list (string * value))
  : M (list (string * value)) :=
  serverTimestamp <- get_now ;;
  let data' := if created
               then set_prop "createdAt" (VDate serverTimestamp) data
               else data in
  ret (set_prop "updatedAt" (VDate serverTimestamp) data').

Definition addTransaction (transaction : value) : M string :=
  try_catch
    (data <- with_timestamps true (prepareForFirestore transaction) ;;
     addDoc "transactions" data)
    (fun error => throw error).

Definition updateTransaction (id : string) (data : value) : M unit :=
  try_catch
    (data' <- with_timestamps false (prepareForFirestore data) ;;
     updateDoc "transactions" id data')
    (fun error => throw error).

Definition deleteTransaction (id : string) : M unit :=
  try_catch (deleteDoc "transactions" id) (fun error => throw error).

(** *** categoryService *)

Definition getCategories (userId : string) : M (list Category) :=
  try_catch
    (querySnapshot <- firestore_call (GetDocsCategories userId)
                        (run_category_query userId) ;;
     ret (map category_of_doc querySnapshot))
    (fun error => throw error).

Definition getCategory (id : string) : M (option Category) :=
  try_catch
    (docSnap <- firestore_call (GetDoc "categories" id)
                  (fun db => find_doc id (categories db)) ;;
     ret (option_map category_of_doc docSnap))
    (fun error => throw error).

Definition addCategory (category : value) : M string :=
  try_catch (addDoc "categories" (spread category)) (fun error => throw error).

Definition updateCategory (id : string) (data : value) : M unit :=
  try_catch (updateDoc "categories" id (spread data))
            (fun error => throw error).

Definition deleteCategory (id : string) : M unit :=
  try_catch (deleteDoc "categories" id) (fun error => throw error).

(** *** userProfileService *)

Definition getProfile (userId : string) : M (option UserProfile) :=
  try_catch
    (docSnap <- firestore_call (GetDoc "users" userId)
                  (fun db => find_doc userId (users db)) ;;
     ret (option_map profile_of_doc docSnap))
    (fun error => throw error).

Definition updateProfile (userId : string) (data : value) : M unit :=
  try_catch
    (data' <- with_timestamps false (prepareForFirestore data) ;;
     updateDoc "users" userId data')
    (fun error => throw error).

(** *** budgetGoalService *)

Record ProgressOptions : Type := {
  po_categoryId : option string;
  po_period : option Period;
  po_date : option Date }.

Definition goal_query (userId : string) (options : option ProgressOptions)
  : GoalQuery :=
  {| gq_userId := userId;
     gq_categoryId :=
       truthy_string (match options with
                      | Some o => po_categoryId o
                      | None => None
                      end);
     gq_period := match options with Some o => po_period o | None => None end |}.

Definition getBudgetGoals (userId : string) (options : option ProgressOptions)
  : M (list BudgetGoal) :=
  try_catch
    (let q := goal_query userId options in
     querySnapshot <- firestore_call (GetDocsBudgetGoals q) (run_goal_query q) ;;
     ret (map budgetGoal_of_doc querySnapshot))
    (fun error => throw error).

Definition getBudgetGoal (id : string) : M (option BudgetGoal) :=
  try_catch
    (docSnap <- firestore_call (GetDoc "budgetGoals" id)
                  (fun db => find_doc id (budgetGoals db)) ;;
     ret (option_map budgetGoal_of_doc docSnap))
    (fun error => throw error).

Definition addBudgetGoal (budgetGoal : value) : M string :=
  try_catch
    (data <- with_timestamps true (prepareForFirestore budgetGoal) ;;
     addDoc "budgetGoals" data)
    (fun error => throw error).

Definition updateBudgetGoal (id : string) (data : value) : M unit :=
  try_catch
    (data' <- with_timestamps false (prepareForFirestore data) ;;
     updateDoc "budgetGoals" id data')
    (fun error => throw error).

Definition deleteBudgetGoal (id : string) : M unit :=
  try_catch (deleteDoc "budgetGoals" id) (fun error => throw error).

(** The date range of a period around [date]. *)
Definition period_range (period : option Period) (date : Date) : Date * Date :=
  match period with
  | None | Some monthly =>
      (newDate (getFullYear date) (getMonth date) 1 0 0 0 0,
       newDate (getFullYear date) (getMonth date + 1) 0 0 0 0 0)
  | Some yearly =>
      (newDate (getFullYear date) 0 1 0 0 0 0,
       newDate (getFullYear date) 11 31 0 0 0 0)
  | Some weekly =>
      let day := getDay date in
      let startDate := setDate date (getDate date - day) in
      (startDate, setDate startDate (getDate startDate + 6))
  | Some daily =>
      (newDate (getFullYear date) (getMonth date) (getDate date) 0 0 0 0,
       newDate (getFullYear date) (getMonth date) (getDate date) 23 59 59 0)
  end%Z.

Record Progress : Type := {
  budgetGoal : BudgetGoal;
  spent : Qc;
  remaining : Qc;
  percentage : number }.

(** The [reduce] over the transactions of a goal. *)
Definition total_spent (transactions : list Transaction) : Qc :=
  fold_left
    (fun total transaction =>
       (total + Qcabs (if Qc_ltb (tx_amount transaction) 0
                       then tx_amount transaction else 0))%Qc)
    transactions 0%Qc.

Definition goal_progress (userId : string) (startDate endDate : Date)
           (budgetGoal : BudgetGoal) : M Progress :=
  page <- getTransactions userId
            (Some {| opt_categoryId := Some (goal_categoryId budgetGoal);
                     opt_startDate := Some startDate;
                     opt_endDate := Some endDate;
                     opt_limit := None; opt_lastDoc := None |}) ;;
  let spent := total_spent (page_transactions page) in
  let remaining := (goal_amount budgetGoal - spent)%Qc in
  let percentage :=
    mul (div (Fin spent) (Fin (goal_amount budgetGoal))) (Fin hundred) in
  ret {| budgetGoal := budgetGoal; spent := spent;
         remaining := remaining; percentage := percentage |}.

Definition getBudgetProgress (userId : string)
           (options : option ProgressOptions) : M (list Progress) :=
  try_catch
    (budgetGoals <- getBudgetGoals userId options ;;
     today <- get_now ;;
     let date := match options with
                 | Some {| po_date := Some d |} => d
                 | _ => today
                 end in
     let '(startDate, endDate) :=
       period_range (match options with
                     | Some o => po_period o
                     | None => None
                     end) date in
     all (map (goal_progress userId startDate endDate) budgetGoals))
    (fun error => throw error).

(** *** The services as objects

    What a caller typed [any] reaches: methods by name, arguments by
    position. *)

Definition some_value {A : Type} (f : A -> value) (k : string) (o : option A)
  : list (string * value) :=
  match o with Some a => [(k, f a)] | None => [] end.

Definition Transaction_to_value (t : Transaction) : value :=
  VObj (some_value VStr "id" (tx_id t)
        ++ [("userId", VStr (tx_userId t)); ("title", VStr (tx_title t));
            ("amount", VNum (Fin (tx_amount t)));
            ("categoryId", VStr (tx_categoryId t));
            ("transactionDate", VDate (tx_transactionDate t))]
        ++ some_value VStr "notes" (tx_notes t)
        ++ some_value VDate "createdAt" (tx_createdAt t)
        ++ some_value VDate "updatedAt" (tx_updatedAt t)).

Definition CategoryType_to_value (t : CategoryType) : value :=
  VStr (match t with type_income => "income" | type_expense => "expense" end).

Definition Category_to_value (c : Category) : value :=
  VObj (some_value VStr "id" (cat_id c)
        ++ [("userId", VStr (cat_userId c)); ("name", VStr (cat_name c))]
        ++ some_value VStr "icon" (cat_icon c)
        ++ some_value VStr "color" (cat_color c)
        ++ [("type", CategoryType_to_value (cat_type c))]
        ++ some_value VBool "isDefault" (cat_isDefault c)).

Definition Period_to_value (p : Period) : value :=
  VStr (match p with
        | daily => "daily" | weekly => "weekly"
        | monthly => "monthly" | yearly => "yearly"
        end).

Definition BudgetGoal_to_value (g : BudgetGoal) : value :=
  VObj (some_value VStr "id" (goal_id g)
        ++ [("userId", VStr (goal_userId g));
            ("categoryId", VStr (goal_categoryId g));
            ("amount", VNum (Fin (goal_amount g)));
            ("period", Period_to_value (goal_period g));
            ("startDate", VDate (goal_startDate g))]
        ++ some_value VDate "endDate" (goal_endDate g)
        ++ some_value VDate "createdAt" (goal_createdAt g)
        ++ some_value VDate "updatedAt" (goal_updatedAt g)).

Definition UserProfile_to_value (u : UserProfile) : value :=
  VObj ([("id", VStr (profile_id u)); ("email", VStr (profile_email u))]
        ++ some_value VStr "fullName" (profile_fullName u)
        ++ some_value VStr "avatarUrl" (profile_avatarUrl u)
        ++ some_value VDate "createdAt" (profile_createdAt u)
        ++ some_value VDate "updatedAt" (profile_updatedAt u)).

(** A document snapshot seen from untyped code. *)
Definition snapshot_to_value (d : Doc Transaction) : value :=
  VObj [("id", VStr (doc_id d))].

(** [{ transactions, lastDoc }] *)
Definition Page_to_value (p : Page) : value :=
  VObj [("transactions", VArr (map Transaction_to_value (page_transactions p)));
        ("lastDoc", opt_value snapshot_to_value (page_lastDoc p))].

Definition Summary_to_value (s : Summary) : value :=
  VObj [("income", VNum (Fin (income s))); ("expenses", VNum (Fin (expenses s)));
        ("balance", VNum (Fin (balance s)))].

Definition Progress_to_value (r : Progress) : value :=
  VObj [("budgetGoal", BudgetGoal_to_value (budgetGoal r));
        ("spent", VNum (Fin (spent r))); ("remaining", VNum (Fin (remaining r)));
        ("percentage", VNum (percentage r))].

(** A path segment or an operand of [where] has to be a string. *)
Definition as_string (v : value) : M string :=
  match v with
  | VStr s => ret s
  | _ => throw (FsError "invalid-argument")
  end.

Definition string_field (k : string) (v : value) : option string :=
  match get k v with VStr s => Some s | _ => None end.

Definition date_field (k : string) (v : value) : option Date :=
  match get k v with VDate t => Some t | _ => None end.

Definition nat_field (k : string) (v : value) : option nat :=
  match get k v with
  | VNum (Fin q) => Some (Z.to_nat (Qfloor q))
  | _ => None
  end.

Definition period_field (k : string) (v : value) : option Period :=
  match string_field k v with
  | Some s =>
      if String.eqb s "daily" then Some daily
      else if String.eqb s "weekly" then Some weekly
      else if String.eqb s "monthly" then Some monthly
      else if String.eqb s "yearly" then Some yearly
      else None
  | None => None
  end.

(** The options of [getTransactions] read off an untyped object; untyped
    callers have no cursor to pass. *)
Definition TxOptions_of_value (v : value) : option TxOptions :=
  match v with
  | VUndefined | VNull => None
  | _ => Some {| opt_categoryId := string_field "categoryId" v;
                 opt_startDate := date_field "startDate" v;
                 opt_endDate := date_field "endDate" v;
                 opt_limit := nat_field "limit" v;
                 opt_lastDoc := None |}
  end.

Definition ProgressOptions_of_value (v : value) : option ProgressOptions :=
  match v with
  | VUndefined | VNull => None
  | _ => Some {| po_categoryId := string_field "categoryId" v;
                 po_period := period_field "period" v;
                 po_date := date_field "date" v |}
  end.

Definition userProfileService : object :=
  [("getProfile",
    fun args => userId <- as_string (arg 0 args) ;;
                r <- getProfile userId ;;
                ret (null_value UserProfile_to_value r));
   ("updateProfile",
    fun args => userId <- as_string (arg 0 args) ;;
                updateProfile userId (arg 1 args) ;;
                ret VUndefined)].

Definition transactionService : object :=
  [("getTransactions",
    fun args => userId <- as_string (arg 0 args) ;;
                r <- getTransactions userId (TxOptions_of_value (arg 1 args)) ;;
                ret (Page_to_value r));
   ("getTransaction",
    fun args => id <- as_string (arg 0 args) ;;
                r <- getTransaction id ;;
                ret (null_value Transaction_to_value r));
   ("addTransaction",
    fun args => id <- addTransaction (arg 0 args) ;; ret (VStr id));
   ("updateTransaction",
    fun args => id <- as_string (arg 0 args) ;;
                updateTransaction id (arg 1 args) ;;
                ret VUndefined);
   ("deleteTransaction",
    fun args => id <- as_string (arg 0 args) ;;
                deleteTransaction id ;;
                ret VUndefined);
   ("getTransactionSummary",
    fun args => userId <- as_string (arg 0 args) ;;
                r <- getTransactionSummary userId
                       (TxOptions_of_value (arg 1 args)) ;;
                ret (Summary_to_value r))].

Definition categoryService : object :=
  [("getCategories",
    fun args => userId <- as_string (arg 0 args) ;;
                r <- getCategories userId ;;
                ret (VArr (map Category_to_value r)));
   ("getCategory",
    fun args => id <- as_string (arg 0 args) ;;
                r <- getCategory id ;;
                ret (null_value Category_to_value r));
   ("addCategory",
    fun args => id <- addCategory (arg 0 args) ;; ret (VStr id));
   ("updateCategory",
    fun args => id <- as_string (arg 0 args) ;;
                updateCategory id (arg 1 args) ;;
                ret VUndefined);
   ("deleteCategory",
    fun args => id <- as_string (arg 0 args) ;;
                deleteCategory id ;;
                ret VUndefined)].

Definition budgetGoalService : object :=
  [("getBudgetGoals",
    fun args => userId <- as_string (arg 0 args) ;;
                r <- getBudgetGoals userId
                       (ProgressOptions_of_value (arg 1 args)) ;;
                ret (VArr (map BudgetGoal_to_value r)));
   ("getBudgetGoal",
    fun args => id <- as_string (arg 0 args) ;;
                r <- getBudgetGoal id ;;
                ret (null_value BudgetGoal_to_value r));
   ("addBudgetGoal",
    fun args => id <- addBudgetGoal (arg 0 args) ;; ret (VStr id));
   ("updateBudgetGoal",
    fun args => id <- as_string (arg 0 args) ;;
                updateBudgetGoal id (arg 1 args) ;;
                ret VUndefined);
   ("deleteBudgetGoal",
    fun args => id <- as_string (arg 0 args) ;;
                deleteBudgetGoal id ;;
                ret VUndefined);
   ("getBudgetProgress",
    fun args => userId <- as_string (arg 0 args) ;;
                r <- getBudgetProgress userId
                       (ProgressOptions_of_value (arg 1 args)) ;;
                ret (VArr (map Progress_to_value r)))].

End Firestore.

(* ===================================================================== *)
(** ** The database context ([contexts/database-context])                 *)
(* ===================================================================== *)

Module DatabaseContext.
Import JS Store Eff.
Local Open Scope eff_scope.
Local Open Scope string_scope.

Inductive DatabaseType : Type := supabase_ | firestore_.

Record User : Type := { user_id : string }.

(** The state the operations close over. *)
Record Provider : Type := {
  user : option User;
  databaseType : DatabaseType }.

Definition from (table : string) (verb : SbVerb) : SbRequest :=
  {| sb_table := table; sb_verb := verb; sb_modifiers := [] |}.

Definition with_ (m : SbModifier) (query : SbRequest) : SbRequest :=
  {| sb_table := sb_table query; sb_verb := sb_verb query;
     sb_modifiers := sb_modifiers query ++ [m] |}.

(** [d.toISOString()] *)
Definition toISOString_ (d : value) : M value :=
  match d with
  | VDate t => ret (VDate (toISOString t))
  | VUndefined | VNull =>
      throw (TypeError "Cannot read properties of undefined (reading 'toISOString')")
  | _ => throw (TypeError "toISOString is not a function")
  end.

(** [const { data, error } = await query; if (error) throw error] *)
Definition run (query : SbRequest) : M value :=
  response <- supabase_call query ;;
  match error response with
  | Some e => throw (SbError e)
  | None => ret (data response)
  end.

Definition error_toast (title : string) : M unit :=
  toast {| toast_title := title;
           toast_description := "Please try again later";
           toast_variant := destructive |}.

Definition not_authenticated {A : Type} : M A :=
  throw (Error "User not authenticated").

Definition joined : string := "*, category:categories(*)".

Section Operations.

Variable st : Provider.

(** *** Transactions *)

Definition getTransactions (options : value) : M value :=
  match user st with
  | None => ret (VArr [])
  | Some user =>
      setIsLoading true ;;
      try_finally
        (try_catch
           (match databaseType st with
            | supabase_ =>
                let query :=
                  with_ (Order (or_else (get "sortField" options)
                                        (VStr "transaction_date"))
                               (strict_eq (get "sortDirection" options)
                                          (VStr "asc")))
                        (from "transactions" (Select joined)) in
                query <-
                  (if truthy (get "startDate" options)
                   then d <- toISOString_ (get "startDate" options) ;;
                        ret (with_ (Gte "transaction_date" d) query)
                   else ret query) ;;
                query <-
                  (if truthy (get "endDate" options)
                   then d <- toISOString_ (get "endDate" options) ;;
                        ret (with_ (Lte "transaction_date" d) query)
                   else ret query) ;;
                let query :=
                  if truthy (get "categoryId" options)
                     && negb (strict_eq (get "categoryId" options) (VStr "all"))
                  then with_ (Eq_ "category_id" (get "categoryId" options)) query
                  else query in
                let query :=
                  if truthy (get "search" options)
                  then with_ (Ilike "title"
                                ("%" ++ String_ (get "search" options) ++ "%"))
                             query
                  else query in
                let query :=
                  if truthy (get "limit" options)
                  then with_ (Limit (get "limit" options)) query
                  else query in
                data <- run query ;;
                ret (or_else data (VArr []))
            | firestore_ =>
                invoke Firestore.transactionService "getTransactions"
                       [VStr (user_id user); options]
            end)
           (fun error =>
              error_toast "Error fetching transactions" ;;
              ret (VArr [])))
        (setIsLoading false)
  end.

Definition getTransaction (id : value) : M value :=
  match user st with
  | None => not_authenticated
  | Some user =>
      setIsLoading true ;;
      try_finally
        (try_catch
           (match databaseType st with
            | supabase_ =>
                run (with_ Single
                       (with_ (Eq_ "id" id)
                          (from "transactions" (Select joined))))
            | firestore_ =>
                invoke Firestore.transactionService "getTransaction"
                       [VStr (user_id user); id]
            end)
           (fun error =>
              error_toast "Error fetching transaction" ;;
              throw error))
        (setIsLoading false)
  end.

Definition createTransaction (data : value) : M value :=
  match user st with
  | None => not_authenticated
  | Some user =>
      setIsLoading true ;;
      try_finally
        (try_catch
           (match databaseType st with
            | supabase_ =>
                run (with_ Single
                       (with_ SelectBack
                          (from "transactions"
                             (Insert (VObj (Firestore.set_prop "user_id"
                                              (VStr (user_id user))
                                              (Firestore.spread data)))))))
            | firestore_ =>
                invoke Firestore.transactionService "createTransaction"
                       [VStr (user_id user); data]
            end)
           (fun error =>
              error_toast "Error creating transaction" ;;
              throw error))
        (setIsLoading false)
  end.

Definition updateTransaction (id data : value) : M value :=
  match user st with
  | None => not_authenticated
  | Some user =>
      setIsLoading true ;;
      try_finally
        (try_catch
           (match databaseType st with
            | supabase_ =>
                run (with_ Single
                       (with_ SelectBack
                          (with_ (Eq_ "id" id)
                             (from "transactions" (Update data)))))
            | firestore_ =>
                invoke Firestore.transactionService "updateTransaction"
                       [VStr (user_id user); id; data]
            end)
           (fun error =>
              error_toast "Error updating transaction" ;;
              throw error))
        (setIsLoading false)
  end.

Definition deleteTransaction (id : value) : M value :=
  match user st with
  | None => not_authenticated
  | Some user =>
      setIsLoading true ;;
      try_finally
        (try_catch
           (match databaseType st with
            | supabase_ =>
                run (with_ (Eq_ "id" id) (from "transactions" Delete)) ;;
                ret VUndefined
            | firestore_ =>
                invoke Firestore.transactionService "deleteTransaction"
                       [VStr (user_id user); id] ;;
                ret VUndefined
            end)
           (fun error =>
              error_toast "Error deleting transaction" ;;
              throw error))
        (setIsLoading false)
  end.


(** *** Categories *)

Definition getCategories : M value :=
  match user st with
  | None => ret (VArr [])
  | Some user =>
      setIsLoading true ;;
      try_finally
        (try_catch
           (match databaseType st with
            | supabase_ =>
                data <- run (with_ (Order (VStr "name") true)
                               (from "categories" (Select "*"))) ;;
                ret (or_else data (VArr []))
            | firestore_ =>
                invoke Firestore.categoryService "getCategories"
                       [VStr (user_id user)]
            end)
           (fun error =>
              error_toast "Error fetching categories" ;;
              ret (VArr [])))
        (setIsLoading false)
  end.

Definition getCategory (id : value) : M value :=
  match user st with
  | None => not_authenticated
  | Some user =>
      setIsLoading true ;;
      try_finally
        (try_catch
           (match databaseType st with
            | supabase_ =>
                run (with_ Single
                       (with_ (Eq_ "id" id) (from "categories" (Select "*"))))
            | firestore_ =>
                invoke Firestore.categoryService "getCategory"
                       [VStr (user_id user); id]
            end)
           (fun error =>
              error_toast "Error fetching category" ;;
              throw error))
        (setIsLoading false)
  end.

Definition createCategory (data : value) : M value :=
  match user st with
  | None => not_authenticated
  | Some user =>
      setIsLoading true ;;
      try_finally
        (try_catch
           (match databaseType st with
            | supabase_ =>
                run (with_ Single
                       (with_ SelectBack
                          (from "categories"
                             (Insert (VObj (Firestore.set_prop "user_id"
                                              (VStr (user_id user))
                                              (Firestore.spread data)))))))
            | firestore_ =>
                invoke Firestore.categoryService "createCategory"
                       [VStr (user_id user); data]
            end)
           (fun error =>
              error_toast "Error creating category" ;;
              throw error))
        (setIsLoading false)
  end.

Definition updateCategory (id data : value) : M value :=
  match user st with
  | None => not_authenticated
  | Some user =>
      setIsLoading true ;;
      try_finally
        (try_catch
           (match databaseType st with
            | supabase_ =>
                run (with_ Single
                       (with_ SelectBack
                          (with_ (Eq_ "id" id)
                             (from "categories" (Update data)))))
            | firestore_ =>
                invoke Firestore.categoryService "updateCategory"
                       [VStr (user_id user); id; data]
            end)
           (fun error =>
              error_toast "Error updating category" ;;
              throw error))
        (setIsLoading false)
  end.

Definition deleteCategory (id : value) : M value :=
  match user st with
  | None => not_authenticated
  | Some user =>
      setIsLoading true ;;
      try_finally
        (try_catch
           (match databaseType st with
            | supabase_ =>
                run (with_ (Eq_ "id" id) (from "categories" Delete)) ;;
                ret VUndefined
            | firestore_ =>
                invoke Firestore.categoryService "deleteCategory"
                       [VStr (user_id user); id] ;;
                ret VUndefined
            end)
           (fun error =>
              error_toast "Error deleting category" ;;
              throw error))
        (setIsLoading false)
  end.

(** *** Budget goals *)

Definition getBudgetGoals : M value :=
  match user st with
  | None => ret (VArr [])
  | Some user =>
      setIsLoading true ;;
      try_finally
        (try_catch
           (match databaseType st with
            | supabase_ =>
                data <- run (with_ (Order (VStr "created_at") false)
                               (from "budget_goals" (Select joined))) ;;
                ret (or_else data (VArr []))
            | firestore_ =>
                invoke Firestore.budgetGoalService "getBudgetGoals"
                       [VStr (user_id user)]
            end)
           (fun error =>
              error_toast "Error fetching budget goals" ;;
              ret (VArr [])))
        (setIsLoading false)
  end.

Definition getBudgetGoal (id : value) : M value :=
  match user st with
  | None => not_authenticated
  | Some user =>
      setIsLoading true ;;
      try_finally
        (try_catch
           (match databaseType st with
            | supabase_ =>
                run (with_ Single
                       (with_ (Eq_ "id" id) (from "budget_goals" (Select joined))))
            | firestore_ =>
                invoke Firestore.budgetGoalService "getBudgetGoal"
                       [VStr (user_id user); id]
            end)
           (fun error =>
              error_toast "Error fetching budget goal" ;;
              throw error))
        (setIsLoading false)
  end.

Definition createBudgetGoal (data : value) : M value :=
  match user st with
  | None => not_authenticated
  | Some user =>
      setIsLoading true ;;
      try_finally
        (try_catch
           (match databaseType st with
            | supabase_ =>
                run (with_ Single
                       (with_ SelectBack
                          (from "budget_goals"
                             (Insert (VObj (Firestore.set_prop "user_id"
                                              (VStr (user_id user))
                                              (Firestore.spread data)))))))
            | firestore_ =>
                invoke Firestore.budgetGoalService "createBudgetGoal"
                       [VStr (user_id user); data]
            end)
           (fun error =>
              error_toast "Error creating budget goal" ;;
              throw error))
        (setIsLoading false)
  end.

Definition updateBudgetGoal (id data : value) : M value :=
  match user st with
  | None => not_authenticated
  | Some user =>
      setIsLoading true ;;
      try_finally
        (try_catch
           (match databaseType st with
            | supabase_ =>
                run (with_ Single
                       (with_ SelectBack
                          (with_ (Eq_ "id" id)
                             (from "budget_goals" (Update data)))))
            | firestore_ =>
                invoke Firestore.budgetGoalService "updateBudgetGoal"
                       [VStr (user_id user); id; data]
            end)
           (fun error =>
              error_toast "Error updating budget goal" ;;
              throw error))
        (setIsLoading false)
  end.

Definition deleteBudgetGoal (id : value) : M value :=
  match user st with
  | None => not_authenticated
  | Some user =>
      setIsLoading true ;;
      try_finally
        (try_catch
           (match databaseType st with
            | supabase_ =>
                run (with_ (Eq_ "id" id) (from "budget_goals" Delete)) ;;
                ret VUndefined
            | firestore_ =>
                invoke Firestore.budgetGoalService "deleteBudgetGoal"
                       [VStr (user_id user); id] ;;
                ret VUndefined
            end)
           (fun error =>
              error_toast "Error deleting budget goal" ;;
              throw error))
        (setIsLoading false)
  end.

(** *** User profile *)

Definition getUserProfile : M value :=
  match user st with
  | None => not_authenticated
  | Some user =>
      setIsLoading true ;;
      try_finally
        (try_catch
           (match databaseType st with
            | supabase_ =>
                run (with_ Single
                       (with_ (Eq_ "id" (VStr (user_id user)))
                          (from "profiles" (Select "*"))))
            | firestore_ =>
                invoke Firestore.userProfileService "getUserProfile"
                       [VStr (user_id user)]
            end)
           (fun error =>
              error_toast "Error fetching user profile" ;;
              throw error))
        (setIsLoading false)
  end.

Definition updateUserProfile (data : value) : M value :=
  match user st with
  | None => not_authenticated
  | Some user =>
      setIsLoading true ;;
      try_finally
        (try_catch
           (match databaseType st with
            | supabase_ =>
                run (with_ Single
                       (with_ SelectBack
                          (with_ (Eq_ "id" (VStr (user_id user)))
                             (from "profiles" (Update data)))))
            | firestore_ =>
                invoke Firestore.userProfileService "updateUserProfile"
                       [VStr (user_id user); data]
            end)
           (fun error =>
              error_toast "Error updating user profile" ;;
              throw error))
        (setIsLoading false)
  end.

(** *** Financial summary *)

Definition zero : number := Fin (of_Z 0).

Definition summary_value (income expenses balance : number) : value :=
  VObj [("income", VNum income); ("expenses", VNum expenses);
        ("balance", VNum balance)].

(** The body of the [forEach] over the fetched transactions. *)
Definition summary_step (acc : number * number) (transaction : value)
  : M (number * number) :=
  let '(income, expenses) := acc in
  a <- prop "amount" transaction ;;
  let amount := toNumber a in
  if gtb amount zero
  then ret (add income amount, expenses)
  else ret (income, add expenses (abs amount)).

Definition getFinancialSummary (options : value) : M value :=
  match user st with
  | None => ret (summary_value zero zero zero)
  | Some user =>
      try_finally
        (try_catch
           (setIsLoading true ;;
            transactions <-
              match databaseType st with
              | supabase_ =>
                  startDate <- prop "startDate" options ;;
                  from_ <- toISOString_ startDate ;;
                  endDate <- prop "endDate" options ;;
                  to_ <- toISOString_ endDate ;;
                  data <- run (with_ (Lte "transaction_date" to_)
                                 (with_ (Gte "transaction_date" from_)
                                    (from "transactions" (Select "*")))) ;;
                  ret (or_else data (VArr []))
              | firestore_ =>
                  startDate <- prop "startDate" options ;;
                  endDate <- prop "endDate" options ;;
                  invoke Firestore.transactionService "getTransactions"
                         [VStr (user_id user);
                          VObj [("startDate", startDate);
                                ("endDate", endDate)]]
              end ;;
            ' (income, expenses) <-
              forEach "transactions" transactions summary_step (zero, zero) ;;
            ret (summary_value income expenses (sub income expenses)))
           (fun error =>
              error_toast "Error calculating financial summary" ;;
              ret (summary_value zero zero zero)))
        (setIsLoading false)
  end.

(** *** Data migration *)

Definition migration_result (success : bool) (message : string)
           (details : option (bool * bool * bool * bool)) : value :=
  VObj ([("success", VBool success); ("message", VStr message)]
        ++ match details with
           | Some (profile, categories, transactions, budgetGoals) =>
               [("details",
                 VObj [("profile", VBool profile);
                       ("categories", VBool categories);
                       ("transactions", VBool transactions);
                       ("budgetGoals", VBool budgetGoals)])]
           | None => []
           end).

(** [if (rows && rows.length > 0) { for (const row of rows) ... }] *)
Definition migrate_rows (rows : value) (each : value -> M unit) : M bool :=
  match rows with
  | VArr (_ :: _ as items) => mapM each items ;; ret true
  | _ => ret false
  end.

Definition migrateData : M value :=
  match user st with
  | None => not_authenticated
  | Some user =>
      setIsLoading true ;;
      try_finally
        (try_catch
           (profile <- supabase_call
                         (with_ Single
                            (with_ (Eq_ "id" (VStr (user_id user)))
                               (from "profiles" (Select "*")))) ;;
            match error profile with
            | Some e => if String.eqb (sb_code e) "PGRST116"
                        then ret tt else throw (SbError e)
            | None => ret tt
            end ;;
            let profileData := data profile in
            categoriesData <- run (from "categories" (Select "*")) ;;
            transactionsData <- run (from "transactions" (Select "*")) ;;
            budgetGoalsData <- run (from "budget_goals" (Select "*")) ;;
            profile_done <-
              (if truthy profileData
               then invoke Firestore.userProfileService "createUserProfile"
                           [VStr (user_id user);
                            VObj (Firestore.set_prop "id" (VStr (user_id user))
                                    (Firestore.spread profileData))] ;;
                    ret true
               else ret false) ;;
            categories_done <-
              migrate_rows categoriesData
                (fun category =>
                   invoke Firestore.categoryService "createCategory"
                          [VStr (user_id user);
                           VObj (Firestore.set_prop "userId" (VStr (user_id user))
                                   (Firestore.spread category))] ;;
                   ret tt) ;;
            transactions_done <-
              migrate_rows transactionsData
                (fun transaction =>
                   invoke Firestore.transactionService "createTransaction"
                          [VStr (user_id user);
                           VObj (Firestore.set_prop "transactionDate"
                                   (get "transaction_date" transaction)
                                   (Firestore.set_prop "userId"
                                      (VStr (user_id user))
                                      (Firestore.spread transaction)))] ;;
                   ret tt) ;;
            budgetGoals_done <-
              migrate_rows budgetGoalsData
                (fun budgetGoal =>
                   invoke Firestore.budgetGoalService "createBudgetGoal"
                          [VStr (user_id user);
                           VObj (Firestore.set_prop "userId" (VStr (user_id user))
                                   (Firestore.spread budgetGoal))] ;;
                   ret tt) ;;
            ret (migration_result true "Data migration completed successfully"
                   (Some (profile_done, categories_done,
                          transactions_done, budgetGoals_done))))
           (fun error => ret (migration_result false "Data migration failed" None)))
        (setIsLoading false)
  end.

(** *** The context value: the operations consumers reach by name *)

Definition value_ : object :=
  [("getTransactions", fun args => getTransactions (arg 0 args));
   ("getTransaction", fun args => getTransaction (arg 0 args));
   ("createTransaction", fun args => createTransaction (arg 0 args));
   ("updateTransaction",
    fun args => updateTransaction (arg 0 args) (arg 1 args));
   ("deleteTransaction", fun args => deleteTransaction (arg 0 args));
   ("getCategories", fun _ => getCategories);
   ("getCategory", fun args => getCategory (arg 0 args));
   ("createCategory", fun args => createCategory (arg 0 args));
   ("updateCategory", fun args => updateCategory (arg 0 args) (arg 1 args));
   ("deleteCategory", fun args => deleteCategory (arg 0 args));
   ("getBudgetGoals", fun _ => getBudgetGoals);
   ("getBudgetGoal", fun args => getBudgetGoal (arg 0 args));
   ("createBudgetGoal", fun args => createBudgetGoal (arg 0 args));
   ("updateBudgetGoal",
    fun args => updateBudgetGoal (arg 0 args) (arg 1 args));
   ("deleteBudgetGoal", fun args => deleteBudgetGoal (arg 0 args));
   ("getUserProfile", fun _ => getUserProfile);
   ("updateUserProfile", fun args => updateUserProfile (arg 0 args));
   ("getFinancialSummary", fun args => getFinancialSummary (arg 0 args));
   ("migrateData", fun _ => migrateData)].

End Operations.

End DatabaseContext.

(* ===================================================================== *)
(** ** [src/components/transactions/transaction-form.tsx]                 *)
(* ===================================================================== *)

Module TransactionForm.
Import JS Store Eff.
Local Open Scope eff_scope.
Local Open Scope string_scope.

(** *** formSchema *)

(** What the form hands to the resolver; a field is absent until the user
    fills it in. *)
Record Input : Type := {
  in_title : string;
  in_amount : string;
  in_category_id : option string;
  in_transaction_date : option Date;
  in_notes : option string }.

(** [z.infer<typeof formSchema>] *)
Record Values : Type := {
  title : string;
  amount : string;
  category_id : string;
  transaction_date : Date;
  notes : option string }.

Record Issue : Type := { path : string; issue_message : string }.

Definition check (ok : bool) (path message : string) : list Issue :=
  if ok then [] else [{| path := path; issue_message := message |}].

Definition million : number := Fin (of_Z 1000000).

(** The issues of an input: every check of every field is evaluated. *)
Definition issues (i : Input) : list Issue :=
  check (2 <=? String.length (in_title i))%nat
        "title" "Title must be at least 2 characters."
  ++ check (String.length (in_title i) <=? 100)%nat
           "title" "Title cannot exceed 100 characters."
  ++ check (negb (isNaN (Number (in_amount i))))
           "amount" "Amount must be a number."
  ++ check (negb (eqb (Number (in_amount i)) (Fin (of_Z 0))))
           "amount" "Amount cannot be zero."
  ++ check (leb (Number (in_amount i)) million)
           "amount" "Amount cannot exceed 1,000,000."
  ++ check (match in_category_id i with Some _ => true | None => false end)
           "category_id" "Please select a category."
  ++ check (match in_transaction_date i with Some _ => true | None => false end)
           "transaction_date" "Please select a date."
  ++ check (match in_notes i with
            | Some n => (String.length n <=? 500)%nat
            | None => true
            end)
           "notes" "Notes cannot exceed 500 characters.".

(** [formSchema.safeParse] *)
Definition safeParse (i : Input) : list Issue + Values :=
  match issues i, in_category_id i, in_transaction_date i with
  | [], Some c, Some d =>
      inr {| title := in_title i; amount := in_amount i; category_id := c;
             transaction_date := d; notes := in_notes i |}
  | l, _, _ => inl l
  end.

Definition accepts (i : Input) : bool :=
  match safeParse i with inr _ => true | inl _ => false end.

(** *** onSubmit *)

(** What the component has from its hooks when the handler runs. *)
Record Props : Type := {
  categories : list value;
  databaseType : DatabaseContext.DatabaseType;
  database : object }.

(** The state of the component after the handler. *)
Record State : Type := {
  isSubmitting : bool;
  error : option string;
  form_reset : bool }.

(** [Adjust amount sign based on category type] *)
Definition adjust_amount (selectedCategory : value) (entered : string)
  : number :=
  let amount := parseFloat entered in
  if strict_eq (get "type" selectedCategory) (VStr "expense")
  then neg (abs amount)
  else abs amount.

(** [values.notes || null] *)
Definition notes_or_null (notes : option string) : value :=
  or_else (opt_value VStr notes) VNull.

(** [Prepare transaction data based on database type] *)
Definition transaction_data (databaseType : DatabaseContext.DatabaseType)
           (values : Values) (amount : number) : value :=
  match databaseType with
  | DatabaseContext.firestore_ =>
      VObj [("title", VStr (title values));
            ("amount", VNum amount);
            ("categoryId", VStr (category_id values));
            ("transactionDate", VDate (transaction_date values));
            ("notes", notes_or_null (notes values))]
  | DatabaseContext.supabase_ =>
      VObj [("title", VStr (title values));
            ("amount", VNum amount);
            ("category_id", VNum (parseInt (category_id values)));
            ("transaction_date", VDate (toISOString (transaction_date values)));
            ("notes", notes_or_null (notes values))]
  end.

Definition fallback (message default_ : string) : string :=
  if String.eqb message EmptyString then default_ else message.

Definition onSubmit (p : Props) (values : Values) : M State :=
  (* setIsSubmitting(true); setError(null) *)
  r <- try_catch
         (selectedCategory <-
            find (fun cat =>
                    id <- prop "id" cat ;;
                    ret (strict_eq id (VStr (category_id values))
                         || strict_eq id (VNum (Number (category_id values)))
                         || strict_eq id (VStr (category_id values))))
                 (categories p) ;;
          match selectedCategory with
          | None => throw (Error "Selected category not found. Please try again.")
          | Some selectedCategory =>
              let amount := adjust_amount selectedCategory (amount values) in
              let transactionData :=
                transaction_data (databaseType p) values amount in
              invoke (database p) "addTransaction" [transactionData] ;;
              toast {| toast_title := "Transaction added";
                       toast_description :=
                         "Your transaction has been successfully added.";
                       toast_variant := default |} ;;
              ret {| isSubmitting := true; error := None; form_reset := true |}
          end)
         (fun error =>
            let description :=
              fallback (message error)
                       "There was an error adding your transaction." in
            toast {| toast_title := "Error";
                     toast_description := description;
                     toast_variant := destructive |} ;;
            ret {| isSubmitting := true; error := Some description;
                   form_reset := false |}) ;;
  (* finally: setIsSubmitting(false) *)
  ret {| isSubmitting := false; error := error r; form_reset := form_reset r |}.

(** [form.handleSubmit(onSubmit)]: the handler runs on accepted input
    only. *)
Definition handleSubmit (p : Props) (i : Input) : M (option State) :=
  match safeParse i with
  | inr values => s <- onSubmit p values ;; ret (Some s)
  | inl _ => ret None
  end.

End TransactionForm.

(* ===================================================================== *)
(** ** [src/components/transactions/transactions-table.tsx]               *)
(* ===================================================================== *)

Module TransactionsTable.
Import JS Store Eff.
Local Open Scope eff_scope.
Local Open Scope string_scope.

Record DateRange : Type := { from : option Date; to : option Date }.

Record Filters : Type := {
  search : string;
  categoryId : string;
  dateRange : option DateRange;
  sortField : string;
  sortDirection : string;
  amountRange : string }.

Definition default_filters : Filters :=
  {| search := EmptyString; categoryId := "all"; dateRange := None;
     sortField := "transactionDate"; sortDirection := "desc";
     amountRange := "all" |}.

Record TransactionWithCategory : Type := {
  transaction : Transaction;
  category : option Category }.

Record State : Type := {
  transactions : list TransactionWithCategory;
  isLoading : bool;
  currentPage : nat;
  totalPages : nat;
  lastDoc : option (Doc Transaction);
  filters : Filters;
  categories : list Category }.

Definition initial_state : State :=
  {| transactions := []; isLoading := true; currentPage := 1; totalPages := 1;
     lastDoc := None; filters := default_filters; categories := [] |}.

Definition pageSize : nat := 10.

(** [Prepare options for the query], before pagination. *)
Definition base_options (f : Filters) : Firestore.TxOptions :=
  {| Firestore.opt_limit := Some pageSize;
     Firestore.opt_categoryId :=
       if String.eqb (categoryId f) "all" then None else Some (categoryId f);
     Firestore.opt_startDate :=
       match dateRange f with Some r => from r | None => None end;
     Firestore.opt_endDate :=
       match dateRange f with
       | Some {| from := Some _; to := t |} => t
       | _ => None
       end;
     Firestore.opt_lastDoc := None |}.

Definition with_lastDoc (o : Firestore.TxOptions)
           (d : option (Doc Transaction)) : Firestore.TxOptions :=
  {| Firestore.opt_limit := Firestore.opt_limit o;
     Firestore.opt_categoryId := Firestore.opt_categoryId o;
     Firestore.opt_startDate := Firestore.opt_startDate o;
     Firestore.opt_endDate := Firestore.opt_endDate o;
     Firestore.opt_lastDoc := d |}.

Definition with_limit (o : Firestore.TxOptions) (n : nat)
  : Firestore.TxOptions :=
  {| Firestore.opt_limit := Some n;
     Firestore.opt_categoryId := Firestore.opt_categoryId o;
     Firestore.opt_startDate := Firestore.opt_startDate o;
     Firestore.opt_endDate := Firestore.opt_endDate o;
     Firestore.opt_lastDoc := Firestore.opt_lastDoc o |}.

(** [for (let i = 1; i < currentPage; i++)], with [count] iterations to
    go: every iteration queries one page after [tempLastDoc] and keeps the
    last document of that page. *)
Fixpoint replay (userId : string) (options : Firestore.TxOptions)
         (count : nat) (tempLastDoc : option (Doc Transaction))
  : M (option (Doc Transaction)) :=
  match count with
  | O => ret tempLastDoc
  | S count' =>
      let tempOptions := with_limit options pageSize in
      let tempOptions :=
        match tempLastDoc with
        | Some d => with_lastDoc tempOptions (Some d)
        | None => tempOptions
        end in
      page <- Firestore.getTransactions userId (Some tempOptions) ;;
      replay userId options count' (Firestore.page_lastDoc page)
  end.

(** [categories.find(c => c.id === id)] *)
Definition find_category (id : string) (l : list Category) : option Category :=
  List.find (fun c => match cat_id c with
                      | Some i => String.eqb i id
                      | None => false
                      end) l.

Definition attach_category (known : list Category) (t : Transaction)
  : M TransactionWithCategory :=
  if negb (String.eqb (tx_categoryId t) EmptyString) then
    category <-
      match find_category (tx_categoryId t) known with
      | Some c => ret (Some c)
      | None => Firestore.getCategory (tx_categoryId t)
      end ;;
    ret {| transaction := t; category := category |}
  else ret {| transaction := t; category := None |}.

Definition matches_search (searchLower : string) (tx : TransactionWithCategory)
  : bool :=
  includes (toLowerCase (tx_title (transaction tx))) searchLower
  || match tx_notes (transaction tx) with
     | Some n => negb (String.eqb n EmptyString)
                 && includes (toLowerCase n) searchLower
     | None => false
     end
  || match category tx with
     | Some c => includes (toLowerCase (cat_name c)) searchLower
     | None => false
     end.

Definition in_amount_range (range : string) (tx : TransactionWithCategory)
  : bool :=
  let amount := Qcabs (tx_amount (transaction tx)) in
  if String.eqb range "0-50"
  then Qc_leb (of_Z 0) amount && Qc_leb amount (of_Z 50)
  else if String.eqb range "50-100"
  then Qc_ltb (of_Z 50) amount && Qc_leb amount (of_Z 100)
  else if String.eqb range "100-500"
  then Qc_ltb (of_Z 100) amount && Qc_leb amount (of_Z 500)
  else if String.eqb range "500+"
  then Qc_ltb (of_Z 500) amount
  else true.

(** [Apply client-side filtering for search and amount range] *)
Definition client_filter (f : Filters) (l : list TransactionWithCategory)
  : list TransactionWithCategory :=
  let l :=
    if negb (String.eqb (search f) EmptyString)
    then filter (matches_search (toLowerCase (search f))) l
    else l in
  if negb (String.eqb (amountRange f) "all")
  then filter (in_amount_range (amountRange f)) l
  else l.

Definition set_loading (b : bool) (st : State) : State :=
  {| transactions := transactions st; isLoading := b;
     currentPage := currentPage st; totalPages := totalPages st;
     lastDoc := lastDoc st; filters := filters st;
     categories := categories st |}.

Definition set_lastDoc (d : option (Doc Transaction)) (st : State) : State :=
  {| transactions := transactions st; isLoading := isLoading st;
     currentPage := currentPage st; totalPages := totalPages st;
     lastDoc := d; filters := filters st; categories := categories st |}.

(** The [catch] block; [st] is the state the failed attempt had reached. *)
Definition load_failed (st : State) : M State :=
  toast {| toast_title := "Error";
           toast_description := "Failed to load transactions.";
           toast_variant := destructive |} ;;
  ret st.

Definition fetchTransactions (userId : string) (st : State) : M State :=
  (* setIsLoading(true) *)
  st' <-
    try_catch
      (let options := base_options (filters st) in
       options <-
         match lastDoc st with
         | Some d =>
             if (1 <? currentPage st)%nat
             then ret (with_lastDoc options (Some d))
             else ret options
         | None =>
             if (1 <? currentPage st)%nat
             then tempLastDoc <-
                    replay userId options (currentPage st - 1) None ;;
                  ret (with_lastDoc options tempLastDoc)
             else ret options
         end ;;
       page <- Firestore.getTransactions userId (Some options) ;;
       let st := set_lastDoc (Firestore.page_lastDoc page) st in
       try_catch
         (transactionsWithCategories <-
            all (map (attach_category (categories st))
                     (Firestore.page_transactions page)) ;;
          ret {| transactions :=
                   client_filter (filters st) transactionsWithCategories;
                 isLoading := true;
                 currentPage := currentPage st;
                 totalPages := Nat.max (currentPage st) 1;
                 lastDoc := lastDoc st;
                 filters := filters st;
                 categories := categories st |})
         (fun error => load_failed st))
      (fun error => load_failed st) ;;
  (* finally: setIsLoading(false) *)
  ret (set_loading false st').

End TransactionsTable.

(* ===================================================================== *)
(** ** [components/dashboard/ai-insights]                                 *)
(* ===================================================================== *)

Module AIInsights.
Import JS Store Eff.
Local Open Scope eff_scope.
Local Open Scope string_scope.

(** The sentence of the summary, by its template and the figures it
    quotes. *)
Inductive SummaryText : Type :=
| NothingYet
| NoTransactions (month : Z)
| Increased (month : Z) (total percent : number)
| Decreased (month : Z) (total percent : number)
| Similar (month : Z) (total : number)
| Unable.

Inductive Tip : Type :=
| NoTip
| TipFromList (index : nat) (topCategory : value)
| TryAddingMore.

Record Insights : Type := {
  summary : SummaryText;
  topCategory : value;
  topCategoryAmount : number;
  monthlyChange : number;
  tip : Tip }.

Record State : Type := {
  isLoading : bool;
  isRefreshing : bool;
  error : option string;
  insights : Insights }.

Definition zero : number := Fin (of_Z 0).

Definition initial_state : State :=
  {| isLoading := true; isRefreshing := false; error := None;
     insights := {| summary := NothingYet; topCategory := VStr EmptyString;
                    topCategoryAmount := zero; monthlyChange := zero;
                    tip := NoTip |} |}.

(** [categoryTotals]: the entries in insertion order. *)
Definition Totals : Type := list (string * (number * value)).

Fixpoint bump (key : string) (name : value) (amount : number) (t : Totals)
  : Totals :=
  match t with
  | [] => [(key, (add zero amount, name))]
  | (k, (a, n)) :: r =>
      if String.eqb k key then (k, (add a amount, n)) :: r
      else (k, (a, n)) :: bump key name amount r
  end.

(** Whether a property key is an array index: those come first, in
    ascending order, when the values of an object are enumerated. *)
Definition index_of_key (k : string) : option Z :=
  match list_ascii_of_string k with
  | [] => None
  | c :: r =>
      let '(v, n, rest) := read_digits 10 (c :: r) 0 O in
      match rest with
      | [] => if ((code c =? 48) && negb (Nat.eqb n 1)) || (4294967295 <=? v)
              then None else Some v
      | _ => None
      end
  end%Z.

Fixpoint insert_indexed (e : Z * (number * value))
         (l : list (Z * (number * value))) : list (Z * (number * value)) :=
  match l with
  | [] => [e]
  | x :: r => if (fst x <=? fst e)%Z then x :: insert_indexed e r else e :: l
  end.

(** [Object.values(categoryTotals)] *)
Definition values_of (t : Totals) : list (number * value) :=
  let indexed :=
    fold_right (fun kv acc =>
                  match index_of_key (fst kv) with
                  | Some i => insert_indexed (i, snd kv) acc
                  | None => acc
                  end) [] t in
  map snd indexed
  ++ map snd (filter (fun kv => match index_of_key (fst kv) with
                                | Some _ => false
                                | None => true
                                end) t).

(** The callback of [currentMonthTransactions.forEach]. *)
Definition current_step (categories : value) (acc : number * Totals)
           (transaction : value) : M (number * Totals) :=
  let '(currentMonthTotal, categoryTotals) := acc in
  a <- prop "amount" transaction ;;
  let amount := toNumber a in
  if ltb amount zero then
    let categoryId :=
      or_else (get "category_id" transaction) (get "categoryId" transaction) in
    ' (categoryId, categoryName) <-
      (if truthy (get "category" transaction)
       then ret (get "id" (get "category" transaction),
                 get "name" (get "category" transaction))
       else
         match categories with
         | VArr items =>
             category <-
               find (fun c =>
                       id <- prop "id" c ;;
                       ret (strict_eq id categoryId
                            || strict_eq id (VNum (toNumber categoryId))
                            || strict_eq id (VStr (String_ categoryId))))
                    items ;;
             match category with
             | Some c => if truthy c
                         then ret (categoryId, get "name" c)
                         else ret (categoryId, VStr "Uncategorized")
             | None => ret (categoryId, VStr "Uncategorized")
             end
         | VUndefined | VNull =>
             throw (TypeError "Cannot read properties of undefined (reading 'find')")
         | _ => throw (TypeError "categories.find is not a function")
         end) ;;
    let key := String_ (or_else categoryId categoryName) in
    ret (add currentMonthTotal (abs amount),
         bump key categoryName (abs amount) categoryTotals)
  else ret acc.

(** [Find top spending category] *)
Definition top_category (t : Totals) : value * number :=
  fold_left (fun top data =>
               if gtb (fst data) (snd top) then (snd data, fst data) else top)
            (values_of t) (VStr "None", zero).

(** [previousMonthTransactions.filter(...).reduce(...)] *)
Definition previous_total (previousMonthTransactions : value) : M number :=
  match previousMonthTransactions with
  | VArr items =>
      kept <- mapM (fun t => a <- prop "amount" t ;; ret (toNumber a)) items ;;
      ret (fold_left (fun sum a => add sum (abs a))
                     (filter (fun a => ltb a zero) kept) zero)
  | VUndefined | VNull =>
      throw (TypeError "Cannot read properties of undefined (reading 'filter')")
  | _ => throw (TypeError "previousMonthTransactions.filter is not a function")
  end.

(** [Calculate month-over-month change] *)
Definition monthly_change (currentMonthTotal previousMonthTotal : number)
  : number :=
  if gtb previousMonthTotal zero
  then mul (div (sub currentMonthTotal previousMonthTotal) previousMonthTotal)
           (Fin hundred)
  else zero.

Definition is_empty_array (v : value) : bool :=
  match v with VArr [] => true | _ => false end.

Definition generateInsights (database : object) (st : State) : M State :=
  (* setIsLoading(true); setError(null) *)
  r <- try_catch
         (now <- get_now ;;
          let currentMonthStart := startOfMonth now in
          let currentMonthEnd := endOfMonth now in
          let previousMonthStart := startOfMonth (subMonths now 1) in
          let previousMonthEnd := endOfMonth (subMonths now 1) in
          currentMonthTransactions <-
            invoke database "getTransactions"
                   [VObj [("startDate", VDate currentMonthStart);
                          ("endDate", VDate currentMonthEnd)]] ;;
          previousMonthTransactions <-
            invoke database "getTransactions"
                   [VObj [("startDate", VDate previousMonthStart);
                          ("endDate", VDate previousMonthEnd)]] ;;
          categories <- invoke database "getCategories" [] ;;
          ' (currentMonthTotal, categoryTotals) <-
            forEach "currentMonthTransactions" currentMonthTransactions
                    (current_step categories) (zero, []) ;;
          let '(topName, topAmount) := top_category categoryTotals in
          previousMonthTotal <- previous_total previousMonthTransactions ;;
          let monthlyChange :=
            monthly_change currentMonthTotal previousMonthTotal in
          let currentMonthName := getMonth now in
          let summary :=
            if is_empty_array currentMonthTransactions
            then NoTransactions currentMonthName
            else if gtb monthlyChange (Fin (of_Z 10))
            then Increased currentMonthName currentMonthTotal (abs monthlyChange)
            else if ltb monthlyChange (Fin (of_Z (-10)))
            then Decreased currentMonthName currentMonthTotal (abs monthlyChange)
            else Similar currentMonthName currentMonthTotal in
          tip <-
            (if gtb topAmount (mul currentMonthTotal (Fin (Q2Qc (4 # 10))))
             then ret (TipFromList 0 topName)
             else if gtb monthlyChange (Fin (of_Z 20))
             then ret (TipFromList 4 topName)
             else r <- get_random ;;
                  ret (TipFromList
                         (Z.to_nat (Qfloor (r * of_Z 6)%Qc) + 2) topName)) ;;
          ret {| isLoading := true; isRefreshing := isRefreshing st;
                 error := None;
                 insights := {| summary := summary; topCategory := topName;
                                topCategoryAmount := topAmount;
                                monthlyChange := monthlyChange;
                                tip := tip |} |})
         (fun _ =>
            ret {| isLoading := true; isRefreshing := isRefreshing st;
                   error := Some "Unable to generate insights at this time.";
                   insights := {| summary := Unable;
                                  topCategory := VStr EmptyString;
                                  topCategoryAmount := zero;
                                  monthlyChange := zero;
                                  tip := TryAddingMore |} |}) ;;
  (* finally: setIsLoading(false); setIsRefreshing(false) *)
  ret {| isLoading := false; isRefreshing := false;
         error := error r; insights := insights r |}.

End AIInsights.

(* ===================================================================== *)
(** ** [src/components/budget/budget-summary.tsx]                         *)
(* ===================================================================== *)

Module BudgetSummary.
Import JS Store Eff.
Local Open Scope eff_scope.
Local Open Scope string_scope.

Record BudgetData : Type := {
  totalBudget : number;
  totalSpent : number;
  percentageSpent : number;
  remaining : number }.

Record State : Type := {
  loading : bool;
  error : option string;
  budgetData : BudgetData }.

Definition zero : number := Fin (of_Z 0).

Definition no_budget : BudgetData :=
  {| totalBudget := zero; totalSpent := zero; percentageSpent := zero;
     remaining := zero |}.

Definition initial_state : State :=
  {| loading := true; error := None; budgetData := no_budget |}.


(** [rows?.reduce(f, 0) || 0] *)
Definition reduce_or_zero (rows : value) (f : number -> value -> number)
  : M number :=
  match rows with
  | VArr items =>
      let total := fold_left f items zero in
      ret (if truthy (VNum total) then total else zero)
  | VUndefined | VNull => ret zero
  | _ => throw (TypeError "reduce is not a function")
  end.


(** [Calculate total spent]: only negative amounts count. *)
Definition total_spent (transactions : value) : M number :=
  reduce_or_zero transactions
    (fun sum tx =>
       add sum (if ltb (toNumber (get "amount" tx)) zero
                then abs (toNumber (get "amount" tx)) else zero)).



Definition fallback (message default_ : string) : string :=
  if String.eqb message EmptyString then default_ else message.


End BudgetSummary.
(* ===================================================================== *)
(** ** Specification-side definitions                                     *)
(* ===================================================================== *)

Module Spec.
Import JS Store Eff.
Local Open Scope string_scope.

(** *** Amounts and sums *)

(** The sum of a list of amounts. *)
Definition sum_Qc (l : list Qc) : Qc := fold_right Qcplus 0%Qc l.

(** The sum of the absolute values of the negative amounts. *)
Definition spending (amounts : list Qc) : Qc :=
  sum_Qc (map Qcabs (filter (fun a => Qc_ltb a 0) amounts)).


(** An untyped row whose [amount] is the finite number [a]. *)
Definition has_amount (row : value) (a : Qc) : Prop :=
  match row with
  | VObj props => assoc "amount" props = Some (VNum (Fin a))
  | _ => False
  end.


(** *** Budget progress *)









(** *** Budget summary *)





(** *** The transaction form *)

(** A number that is at most 1,000,000. *)
Definition at_most_million (x : number) : Prop :=
  match x with
  | Fin q => (q <= of_Z 1000000)%Qc
  | NInf => True
  | PInf | NaN => False
  end.

(** What the claim lets through. *)
Definition valid (i : TransactionForm.Input) : Prop :=
  (2 <= String.length (TransactionForm.in_title i) <= 100)%nat
  /\ (Number (TransactionForm.in_amount i) <> NaN
      /\ Number (TransactionForm.in_amount i) <> Fin 0%Qc
      /\ at_most_million (Number (TransactionForm.in_amount i)))
  /\ (forall n, TransactionForm.in_notes i = Some n -> (String.length n <= 500)%nat)
  /\ TransactionForm.in_category_id i <> None
  /\ TransactionForm.in_transaction_date i <> None.

Definition large_refund : TransactionForm.Input :=
  {| TransactionForm.in_title := "Refund";
     TransactionForm.in_amount := "-5000000";
     TransactionForm.in_category_id := Some "7";
     TransactionForm.in_transaction_date := Some 0%Z;
     TransactionForm.in_notes := None |}.

Definition is_object (v : value) : Prop :=
  match v with VObj _ => True | _ => False end.

Definition negative (n : number) : Prop :=
  match n with Fin q => (q < 0)%Qc | NInf => True | _ => False end.

Definition positive (n : number) : Prop :=
  match n with Fin q => (0 < q)%Qc | PInf => True | _ => False end.

(** The category a submission selects: the first whose id is the submitted
    one, as a string or as a number. *)
Definition selected (categories : list value) (category_id : string)
  : option value :=
  List.find (fun cat =>
               strict_eq (get "id" cat) (VStr category_id)
               || strict_eq (get "id" cat) (VNum (Number category_id)))
            categories.

Definition added_toast : Toast :=
  {| toast_title := "Transaction added";
     toast_description := "Your transaction has been successfully added.";
     toast_variant := default |}.

Definition failed_toast (description : string) : Toast :=
  {| toast_title := "Error"; toast_description := description;
     toast_variant := destructive |}.

(** *** The database context *)

(** Whether a result is a list of records. *)
Definition is_array (v : value) : bool :=
  match v with VArr _ => true | _ => false end.

(** The object [{ transactions, lastDoc }]. *)
Definition is_page (v : value) : bool :=
  match v with
  | VObj [("transactions", VArr _); ("lastDoc", _)] => true
  | _ => false
  end.

Definition returns_array (r : outcome value) : bool :=
  match r with Ok v => is_array v | Throw _ => false end.

Definition not_a_function (name : string) : exn :=
  TypeError (name ++ " is not a function").

(** Both backends fail every call. *)
Definition backend_down (w : World) : Prop :=
  fs_fault w <> None /\ forall r, error (supabase w r) <> None.

Definition list_operations : list string :=
  ["getTransactions"; "getCategories"; "getBudgetGoals"].

Definition no_summary : value :=
  DatabaseContext.summary_value (Fin 0%Qc) (Fin 0%Qc) (Fin 0%Qc).

(** What an operation gives back when its backend call fails. *)
Definition failure_result (name : string) (r : outcome value) : Prop :=
  if existsb (String.eqb name) list_operations then r = Ok (VArr [])
  else if String.eqb name "getFinancialSummary" then r = Ok no_summary
  else exists e, r = Throw e.

Definition one_destructive_toast (w w' : World) : Prop :=
  exists title,
    toasts w' = (toasts w ++ [{| toast_title := title;
                                 toast_description := "Please try again later";
                                 toast_variant := destructive |}])%list.

Definition migration_failed : value :=
  DatabaseContext.migration_result false "Data migration failed" None.

(** *** Insights *)

(** The request the context sends for the transactions of a date range. *)
Definition range_request (startDate endDate : Date) : SbRequest :=
  DatabaseContext.with_ (Lte "transaction_date" (VDate endDate))
    (DatabaseContext.with_ (Gte "transaction_date" (VDate startDate))
       (DatabaseContext.with_ (Order (VStr "transaction_date") false)
          (DatabaseContext.from "transactions"
                                (Select DatabaseContext.joined)))).

Definition categories_request : SbRequest :=
  DatabaseContext.with_ (Order (VStr "name") true)
    (DatabaseContext.from "categories" (Select "*")).

Definition answers (rows : list value) : SbResponse :=
  {| data := VArr rows; error := None |}.

(** The month-over-month change of two monthly totals. *)
Definition change (currentMonthTotal previousMonthTotal : Qc) : Qc :=
  if Qc_ltb 0 previousMonthTotal
  then ((currentMonthTotal - previousMonthTotal) / previousMonthTotal * hundred)%Qc
  else 0%Qc.

(** *** Pagination *)

(** The order of the transactions query, as a relation. *)
Definition before (a b : Doc Transaction) : Prop := Firestore.precedes a b = true.

(** The transactions of [userId] that the category and date filters keep,
    latest first. *)
Definition listed (userId : string) (f : TransactionsTable.Filters) (db : FirestoreDb)
  : list (Doc Transaction) :=
  Firestore.tx_selected
    (Firestore.tx_query userId (Some (TransactionsTable.base_options f))) db.

(** Offset-based pagination: page [n] of a list, [size] a page. *)
Definition page_of {A : Type} (size n : nat) (l : list A) : list A :=
  firstn size (skipn ((n - 1) * size) l).

Definition last_of (docs : list (Doc Transaction)) : option (Doc Transaction) :=
  last (map Some docs) None.

(** Queries of one page each, the first from [cursor], every next one from
    the last document of the page before. *)
Fixpoint chained (db : FirestoreDb) (cursor : option (Doc Transaction))
         (qs : list TxQuery) : Prop :=
  match qs with
  | [] => True
  | q :: r =>
      q_startAfter q = cursor /\ q_limit q = Some TransactionsTable.pageSize
      /\ chained db (last_of (Firestore.run_tx_query q db)) r
  end.

Definition displayed (st : TransactionsTable.State) : list Transaction :=
  map TransactionsTable.transaction (TransactionsTable.transactions st).

(** What a query selects from cursor [c] on. *)
Definition after (userId : string) (f : TransactionsTable.Filters) (db : FirestoreDb)
           (c : option (Doc Transaction)) : list (Doc Transaction) :=
  match c with
  | Some d => filter (Firestore.precedes d) (listed userId f db)
  | None => listed userId f db
  end.

(** The query of one page from cursor [c] on. *)
Definition page_query (userId : string) (f : TransactionsTable.Filters)
           (db : FirestoreDb) (c : option (Doc Transaction)) : TxQuery :=
  Firestore.tx_query userId
    (Some (TransactionsTable.with_lastDoc
             (TransactionsTable.with_limit (TransactionsTable.base_options f)
                                           TransactionsTable.pageSize) c)).

End Spec.

(* ===================================================================== *)
(** ** Sample data                                                        *)
(* ===================================================================== *)

Module Examples.
Import JS Store Eff.
Local Open Scope string_scope.

(** The [k]-th sample transaction of user [u1]: an expense of [k + 1] in
    category [c-food], on day [k]. *)
Definition sample_transaction (k : nat) : Doc Transaction :=
  {| doc_id := "t" ++ Firestore.index_key k;
     doc_data :=
       {| tx_id := None; tx_userId := "u1"; tx_title := "Groceries";
          tx_amount := of_Z (- Z.of_nat (S k));
          tx_categoryId := "c-food";
          tx_transactionDate := (Z.of_nat k * msPerDay)%Z;
          tx_notes := None; tx_createdAt := None; tx_updatedAt := None |} |}.

Definition sample_categories : list (Doc Category) :=
  [{| doc_id := "c-food";
      doc_data := {| cat_id := None; cat_userId := "u1"; cat_name := "Food";
                     cat_icon := None; cat_color := None;
                     cat_type := type_expense; cat_isDefault := None |} |}].

Definition sample_goal (amount : Z) : Doc BudgetGoal :=
  {| doc_id := "g1";
     doc_data := {| goal_id := None; goal_userId := "u1";
                    goal_categoryId := "c-food"; goal_amount := of_Z amount;
                    goal_period := monthly; goal_startDate := 0%Z;
                    goal_endDate := None; goal_createdAt := None;
                    goal_updatedAt := None |} |}.

Definition sample_db (n : nat) (goal : Z) : FirestoreDb :=
  {| users := []; categories := sample_categories;
     transactions := map sample_transaction (seq 0 n);
     budgetGoals := [sample_goal goal] |}.

Definition sample_row (amount : Z) : value :=
  VObj [("id", VStr "r"); ("amount", VNum (Fin (of_Z amount)));
        ("category_id", VNum (Fin (of_Z 1)))].

(** Whether a request asks for dates from before 1970 on. *)
Definition reaches_back (r : SbRequest) : bool :=
  existsb (fun m => match m with
                    | Gte _ (VDate t) => (t <? 0)%Z
                    | _ => false
                    end) (sb_modifiers r).

(** A relational store with two transactions in 1970 and one before, one
    goal of 100 and one expense category. *)
Definition sample_supabase (r : SbRequest) : SbResponse :=
  {| data :=
       if String.eqb (sb_table r) "transactions"
       then if reaches_back r then VArr [sample_row (-80)]
            else VArr [sample_row 300; sample_row (-120)]
       else if String.eqb (sb_table r) "budget_goals"
       then VArr [sample_row 100]
       else VArr [VObj [("id", VNum (Fin (of_Z 1))); ("name", VStr "Food");
                        ("type", VStr "expense")]];
     error := None |}.

(** A world with [n] sample transactions in the document store and a goal
    of [goal] on their category; day 9 of 1970 is today. *)
Definition sample_world (n : nat) (goal : Z) : World :=
  {| fdb := sample_db n goal; fs_fault := None; fs_auto_id := "new";
     supabase := sample_supabase; now := (9 * msPerDay)%Z;
     random := Q2Qc (1 # 2); isLoading := false; calls := []; toasts := [] |}.

(** Both backends down. *)
Definition broken_world : World :=
  {| fdb := sample_db 0 100; fs_fault := Some "unavailable"; fs_auto_id := "new";
     supabase := fun _ => {| data := VNull;
                             error := Some {| sb_message := "fetch failed";
                                              sb_code := "500" |} |};
     now := 0%Z; random := Q2Qc 0; isLoading := false; calls := []; toasts := [] |}.

Definition with_firestore (u : DatabaseContext.User) : DatabaseContext.Provider :=
  {| DatabaseContext.user := Some u;
     DatabaseContext.databaseType := DatabaseContext.firestore_ |}.

Definition with_supabase (u : DatabaseContext.User) : DatabaseContext.Provider :=
  {| DatabaseContext.user := Some u;
     DatabaseContext.databaseType := DatabaseContext.supabase_ |}.

Definition u1 : DatabaseContext.User := {| DatabaseContext.user_id := "u1" |}.

(** The table on page [n] under filters [f], with no cursor kept. *)
Definition at_page (n : nat) (f : TransactionsTable.Filters)
  : TransactionsTable.State :=
  {| TransactionsTable.transactions := [];
     TransactionsTable.isLoading := false;
     TransactionsTable.currentPage := n;
     TransactionsTable.totalPages := n;
     TransactionsTable.lastDoc := None;
     TransactionsTable.filters := f;
     TransactionsTable.categories := [] |}.

Definition large_amounts_only : TransactionsTable.Filters :=
  {| TransactionsTable.search := EmptyString;
     TransactionsTable.categoryId := "all";
     TransactionsTable.dateRange := None;
     TransactionsTable.sortField := "transactionDate";
     TransactionsTable.sortDirection := "desc";
     TransactionsTable.amountRange := "500+" |}.
End Examples.

(* ===================================================================== *)
(** ** Proofs                                                             *)
(* ===================================================================== *)

Import JS Store Eff Spec Examples.

Arguments Firestore.period_range : simpl never.
Arguments startOfMonth : simpl never.
Arguments endOfMonth : simpl never.
Arguments subMonths : simpl never.
Arguments getMonth : simpl never.

Ltac eff_step :=
  repeat (cbv beta iota zeta delta
            [bind ret throw try_catch try_finally setIsLoading prop
             supabase_call toast firestore_call get_now get_random get_auto_id
             DatabaseContext.run DatabaseContext.toISOString_
             DatabaseContext.error_toast forEach log_call log_toast set_loading];
          simpl).

(** Evaluation of a closed equation; two rationals are equal when their
    reduced fractions are. *)
Ltac equal_parts :=
  match goal with
  | |- @eq Qc _ _ => apply Qc_is_canon; reflexivity
  | |- _ => reflexivity
  | |- _ => progress f_equal; equal_parts
  end.

Ltac evaluate := vm_compute; equal_parts.

Ltac sb_fails Hs :=
  match goal with
  | |- context [error (supabase ?w ?r)] =>
      let E := fresh "E" in
      destruct (error (supabase w r)) eqn:E; [|exfalso; exact (Hs r E)]
  end.

Ltac split_values :=
  repeat match goal with
    | |- context [match ?x with _ => _ end] =>
        match type of x with
        | value => destruct x eqn:?
        | bool => destruct x eqn:?
        | number => destruct x eqn:?
        end
    end.

Ltac fs_unfold :=
  unfold invoke, Firestore.as_string, Firestore.getTransactions,
    Firestore.getTransaction, Firestore.updateTransaction,
    Firestore.deleteTransaction, Firestore.getCategories, Firestore.getCategory,
    Firestore.updateCategory, Firestore.deleteCategory, Firestore.getBudgetGoals,
    Firestore.getBudgetGoal, Firestore.updateBudgetGoal, Firestore.deleteBudgetGoal,
    Firestore.updateDoc, Firestore.deleteDoc, Firestore.with_timestamps.

Ltac unfold_op :=
  unfold DatabaseContext.getTransactions, DatabaseContext.getTransaction,
    DatabaseContext.createTransaction, DatabaseContext.updateTransaction,
    DatabaseContext.deleteTransaction, DatabaseContext.getCategories,
    DatabaseContext.getCategory, DatabaseContext.createCategory,
    DatabaseContext.updateCategory, DatabaseContext.deleteCategory,
    DatabaseContext.getBudgetGoals, DatabaseContext.getBudgetGoal,
    DatabaseContext.createBudgetGoal, DatabaseContext.updateBudgetGoal,
    DatabaseContext.deleteBudgetGoal, DatabaseContext.getUserProfile,
    DatabaseContext.updateUserProfile, DatabaseContext.getFinancialSummary,
    DatabaseContext.migrateData.

Ltac failed_op Hfault Hs :=
  repeat (progress (fs_unfold; eff_step; rewrite ?Hfault));
  repeat (first [ sb_fails Hs | progress split_values ];
          repeat (progress (fs_unfold; eff_step; rewrite ?Hfault)));
  eexists; eexists; (split; [reflexivity|]); simpl;
  (split; [eexists; reflexivity|]);
  (split; [rewrite ?length_app; simpl; lia|]);
  unfold failure_result; simpl; eauto.

Section Aggregates.
Local Open Scope string_scope.

(** *** Sums *)

(** * Specification-side definitions *)



Lemma Qc_eqb_eq x y : Qc_eqb x y = true <-> x = y.
Proof.
  unfold Qc_eqb. rewrite Qceq_alt. destruct (x ?= y)%Qc; split; congruence.
Qed.

Lemma Qc_leb_le x y : Qc_leb x y = true <-> (x <= y)%Qc.
Proof.
  unfold Qc_leb. rewrite Qcle_alt. destruct (x ?= y)%Qc; split; congruence.
Qed.







(** *** Financial summary (C9) *)


Lemma of_Z_0 : of_Z 0 = 0%Qc.
Proof. reflexivity. Qed.




(** *** Budget progress (C4) *)

Lemma insert_doc_perm d l : Permutation (Firestore.insert_doc d l) (d :: l).
Proof.
  induction l as [|x r IH]; simpl; auto.
  destruct (Firestore.precedes x d); auto.
  rewrite IH. apply perm_swap.
Qed.

Lemma order_docs_perm l : Permutation (Firestore.order_docs l) l.
Proof.
  induction l as [|x r IH]; simpl; auto.
  rewrite insert_doc_perm. auto.
Qed.









(** *** Budget summary (C10) *)


















(** *** Form validation (C7) *)

Lemma check_nil ok path message :
  TransactionForm.check ok path message = [] <-> ok = true.
Proof. destruct ok; simpl; split; congruence. Qed.

Lemma app_nil_iff {A} (l l' : list A) : (l ++ l')%list = [] <-> l = [] /\ l' = [].
Proof.
  split.
  - apply app_eq_nil.
  - intros [-> ->]. reflexivity.
Qed.

Lemma isNaN_false x : negb (isNaN x) = true <-> x <> NaN.
Proof. destruct x; simpl; split; congruence. Qed.

Lemma nonzero_check x : negb (eqb x (Fin (of_Z 0))) = true <-> x <> Fin 0%Qc.
Proof.
  rewrite of_Z_0. destruct x; simpl; try (split; congruence).
  rewrite negb_true_iff. split.
  - intros H E. inversion E; subst. unfold Qc_eqb in H.
    assert (Z : (0 ?= 0)%Qc = Eq) by (apply Qceq_alt; reflexivity).
    rewrite Z in H. discriminate.
  - intros H. destruct (Qc_eqb q 0) eqn:E; auto.
    apply Qc_eqb_eq in E. subst. contradiction H; reflexivity.
Qed.

Lemma million_check x : leb x TransactionForm.million = true <-> at_most_million x.
Proof.
  destruct x; simpl; try (split; (congruence || tauto)).
  apply Qc_leb_le.
Qed.

Lemma accepts_issues i :
  TransactionForm.accepts i = true <-> TransactionForm.issues i = [].
Proof.
  unfold TransactionForm.accepts, TransactionForm.safeParse.
  split.
  - destruct (TransactionForm.issues i); auto.
    destruct (TransactionForm.in_category_id i),
      (TransactionForm.in_transaction_date i); discriminate.
  - intros H. rewrite H.
    unfold TransactionForm.issues in H.
    repeat (apply app_nil_iff in H; destruct H as [? H]).
    destruct (TransactionForm.in_category_id i); [|discriminate].
    destruct (TransactionForm.in_transaction_date i); [|discriminate].
    reflexivity.
Qed.

Lemma accepts_iff_valid i : TransactionForm.accepts i = true <-> valid i.
Proof.
  rewrite accepts_issues. unfold TransactionForm.issues, valid.
  rewrite !app_nil_iff, !check_nil.
  rewrite isNaN_false, nonzero_check, million_check.
  rewrite !Nat.leb_le.
  split.
  - intros (A & B & C & D & E & F & G & H). repeat split; auto.
    + intros n Hn. rewrite Hn in H. apply Nat.leb_le; auto.
    + destruct (TransactionForm.in_category_id i); congruence.
    + destruct (TransactionForm.in_transaction_date i); congruence.
  - intros ((A & B) & (C & D & E) & F & G & H). repeat split; auto.
    + destruct (TransactionForm.in_category_id i); congruence.
    + destruct (TransactionForm.in_transaction_date i); congruence.
    + destruct (TransactionForm.in_notes i) as [n|]; auto.
      apply Nat.leb_le. auto.
Qed.

(** C7.  The form's validation accepts an input exactly when the title has
    2 to 100 characters, the amount string reads as a number that is not
    zero and at most 1,000,000, the notes, when present, have at most 500
    characters, and a category and a date are supplied.  Nothing bounds the
    amount from below: an amount of -5,000,000 is accepted. *)
Theorem formSchema_accepts_exactly :
  (forall i, TransactionForm.accepts i = true <-> valid i)
  /\ (TransactionForm.accepts large_refund = true
      /\ Number (TransactionForm.in_amount large_refund) = Fin (of_Z (-5000000))).
Proof.
  split; [exact accepts_iff_valid|].
  split; vm_compute; reflexivity.
Qed.

Lemma formSchema_accepts_exactly_witness : valid large_refund.
Proof.
  apply (proj1 formSchema_accepts_exactly large_refund).
  vm_compute. reflexivity.
Defined.

(** *** Sign adjustment (C2) *)

Lemma find_pure (P : value -> M bool) (Q : value -> bool) cats w :
  Forall is_object cats ->
  (forall props w, P (VObj props) w = (Ok (Q (VObj props)), w)) ->
  Eff.find P cats w = (Ok (List.find Q cats), w).
Proof.
  intros H HP. induction H as [|c r Hc _ IH]; simpl; auto.
  destruct c; simpl in Hc; try contradiction.
  unfold bind at 1. rewrite HP. destruct (Q (VObj props)); auto.
Qed.

Lemma find_selected cats category_id w :
  Forall is_object cats ->
  Eff.find
    (fun cat =>
       bind (prop "id" cat)
            (fun id => ret (strict_eq id (VStr category_id)
                            || strict_eq id (VNum (Number category_id))
                            || strict_eq id (VStr category_id))))
    cats w
  = (Ok (selected cats category_id), w).
Proof.
  intros H. unfold selected.
  apply find_pure with
    (Q := fun cat => strict_eq (get "id" cat) (VStr category_id)
                     || strict_eq (get "id" cat) (VNum (Number category_id))); auto.
  intros props w0. unfold bind, prop, ret. simpl.
  destruct (strict_eq _ (VStr category_id)); simpl; auto.
  rewrite orb_false_r. reflexivity.
Qed.

Lemma abs_positive x : x <> NaN -> x <> Fin 0%Qc -> positive (abs x).
Proof.
  destruct x; simpl; auto; try congruence. intros _ H.
  destruct (Qcle_lt_or_eq _ _ (Qcabs_nonneg q)) as [L|E]; auto.
  symmetry in E. apply Qcabs_null in E. subst. contradiction H; reflexivity.
Qed.

Lemma neg_abs_negative x : x <> NaN -> x <> Fin 0%Qc -> negative (neg (abs x)).
Proof.
  intros A B. pose proof (abs_positive A B) as P.
  destruct x; simpl in *; auto.
  apply Qclt_minus_iff. rewrite Qcplus_0_l, Qcopp_involutive. exact P.
Qed.

(** C2.  For every accepted submission (whose amount string reads the
    same as a whole and as a prefix, as every string of a number input does)
    the record handed to the create function has, as amount, minus the
    absolute value of the entered amount when the type of the selected
    category is "expense", and the absolute value otherwise: negative for an
    expense, positive for anything else.  The record is the one argument of
    the create function found under the name addTransaction, and the outcome
    of that call decides between the success toast and the error toast. *)
Theorem stored_amount_sign_adjusted p i values cat w :
  TransactionForm.safeParse i = inr values ->
  parseFloat (TransactionForm.amount values) = Number (TransactionForm.amount values) ->
  Forall is_object (TransactionForm.categories p) ->
  selected (TransactionForm.categories p) (TransactionForm.category_id values)
  = Some cat ->
  let entered := parseFloat (TransactionForm.amount values) in
  exists stored data,
    get "amount" data = VNum stored
    /\ (get "type" cat = VStr "expense" ->
        stored = neg (abs entered) /\ negative stored)
    /\ (get "type" cat <> VStr "expense" ->
        stored = abs entered /\ positive stored)
    /\ forall add,
        assoc "addTransaction" (TransactionForm.database p) = Some add ->
        forall r w1,
          add [data] w = (r, w1) ->
          TransactionForm.onSubmit p values w
          = match r with
            | Ok _ =>
                (Ok {| TransactionForm.isSubmitting := false;
                       TransactionForm.error := None;
                       TransactionForm.form_reset := true |},
                 log_toast added_toast w1)
            | Throw e =>
                let description :=
                  TransactionForm.fallback
                    (message e) "There was an error adding your transaction." in
                (Ok {| TransactionForm.isSubmitting := false;
                       TransactionForm.error := Some description;
                       TransactionForm.form_reset := false |},
                 log_toast (failed_toast description) w1)
            end.
Proof.
  intros Hparse Hsame Hobj Hsel entered.
  assert (Hacc : TransactionForm.accepts i = true)
    by (unfold TransactionForm.accepts; rewrite Hparse; reflexivity).
  apply accepts_iff_valid in Hacc.
  destruct Hacc as (_ & (N1 & N2 & _) & _).
  assert (Ha : TransactionForm.amount values = TransactionForm.in_amount i).
  { unfold TransactionForm.safeParse in Hparse.
    destruct (TransactionForm.issues i);
      [|destruct (TransactionForm.in_category_id i),
          (TransactionForm.in_transaction_date i); discriminate].
    destruct (TransactionForm.in_category_id i); [|discriminate].
    destruct (TransactionForm.in_transaction_date i); [|discriminate].
    inversion Hparse. reflexivity. }
  rewrite <- Ha, <- Hsame in N1, N2. fold entered in N1, N2.
  exists (TransactionForm.adjust_amount cat (TransactionForm.amount values)).
  exists (TransactionForm.transaction_data (TransactionForm.databaseType p) values
            (TransactionForm.adjust_amount cat (TransactionForm.amount values))).
  split; [destruct (TransactionForm.databaseType p); reflexivity|].
  unfold TransactionForm.adjust_amount. fold entered.
  split; [|split].
  - intros T. rewrite T. simpl. split; auto. apply neg_abs_negative; auto.
  - intros T. destruct (strict_eq (get "type" cat) (VStr "expense")) eqn:E.
    + exfalso. apply T. destruct (get "type" cat); simpl in E; try discriminate.
      apply String.eqb_eq in E. subst. reflexivity.
    + split; auto. apply abs_positive; auto.
  - intros add Hadd r w1 Hrun.
    unfold TransactionForm.onSubmit.
    unfold bind at 1. unfold try_catch. unfold bind at 1.
    rewrite (find_selected _ w Hobj). rewrite Hsel.
    unfold invoke. rewrite Hadd.
    unfold TransactionForm.adjust_amount. fold entered.
    unfold bind at 1. rewrite Hrun.
    destruct r; reflexivity.
Qed.

Lemma stored_amount_sign_adjusted_witness :
  exists stored data,
    get "amount" data = VNum stored
    /\ stored = neg (abs (parseFloat "12.50")) /\ negative stored.
Proof.
  destruct (@stored_amount_sign_adjusted
              {| TransactionForm.categories :=
                   [VObj [("id", VStr "c-food"); ("type", VStr "expense")]];
                 TransactionForm.databaseType := DatabaseContext.firestore_;
                 TransactionForm.database := [] |}
              {| TransactionForm.in_title := "Lunch";
                 TransactionForm.in_amount := "12.50";
                 TransactionForm.in_category_id := Some "c-food";
                 TransactionForm.in_transaction_date := Some 0%Z;
                 TransactionForm.in_notes := None |}
              {| TransactionForm.title := "Lunch";
                 TransactionForm.amount := "12.50";
                 TransactionForm.category_id := "c-food";
                 TransactionForm.transaction_date := 0%Z;
                 TransactionForm.notes := None |}
              (VObj [("id", VStr "c-food"); ("type", VStr "expense")])
              (sample_world 0 100))
    as (stored & data & A & E & _).
  - vm_compute. reflexivity.
  - vm_compute. reflexivity.
  - repeat constructor.
  - reflexivity.
  - exists stored, data. split; [exact A|]. exact (E eq_refl).
Defined.

(** Without the agreement of the two readings the sign can be lost:
    [0x10] passes the validation as 16 and is stored as 0. *)
Example hexadecimal_amount :
  Number "0x10" = Fin (of_Z 16) /\ parseFloat "0x10" = Fin (of_Z 0).
Proof. split; evaluate. Qed.

(** *** Form submission (C8) *)

(** Looking a category up reads properties only: the world is unchanged,
    whether the lookup ends or throws. *)
Lemma find_world (P : value -> M bool) cats w :
  (forall c w, snd (P c w) = w) ->
  snd (Eff.find P cats w) = w.
Proof.
  intros HP. induction cats as [|c r IH]; simpl; auto.
  unfold bind at 1. specialize (HP c w).
  destruct (P c w) as [[b|e] w1]; simpl in *; subst; auto.
  destruct b; auto.
Qed.

Lemma context_has_no_addTransaction st :
  assoc "addTransaction" (DatabaseContext.value_ st) = None.
Proof. reflexivity. Qed.

(** C8.  The submission handler takes its create function from the
    database context under the name addTransaction; the context value has no
    such member (its create operation is createTransaction).  Whatever the
    submission, no backend call is made, no success toast is shown and the
    form is not reset: the handler ends with the error state and one
    destructive toast. *)
Theorem onSubmit_never_creates st cats dbt values w :
  exists s w',
    TransactionForm.onSubmit
      {| TransactionForm.categories := cats;
         TransactionForm.databaseType := dbt;
         TransactionForm.database := DatabaseContext.value_ st |} values w
    = (Ok s, w')
    /\ calls w' = calls w
    /\ TransactionForm.error s <> None
    /\ TransactionForm.form_reset s = false
    /\ exists description,
        toasts w' = (toasts w ++ [failed_toast description])%list.
Proof.
  unfold TransactionForm.onSubmit. simpl.
  unfold bind at 1. unfold try_catch. unfold bind at 1.
  match goal with |- context [Eff.find ?P cats w] =>
    pose proof (@find_world P cats w) as HW;
    destruct (Eff.find P cats w) as [[[c|]|e] w1] end;
    simpl in HW; rewrite HW;
    try (intros c0 w0; unfold bind, prop, ret, throw; destruct c0; reflexivity).
  - unfold invoke. rewrite context_has_no_addTransaction.
    eff_step. eexists. eexists. split; [reflexivity|]. simpl.
    repeat split; try congruence. eexists. reflexivity.
  - eff_step. eexists. eexists. split; [reflexivity|]. simpl.
    repeat split; try congruence. eexists. reflexivity.
  - eff_step. eexists. eexists. split; [reflexivity|]. simpl.
    repeat split; try congruence. eexists. reflexivity.
Qed.

(** *** The two backends (C1) *)

(** C1.  The document-store branch of the context calls operations its
    services do not have (createTransaction, createCategory,
    createBudgetGoal, getUserProfile, updateUserProfile), so that these
    operations always throw there; and where the relational branch of
    getTransactions returns a list of rows, the document-store branch returns
    the object of the service, transactions and lastDoc, so that the summary
    of the context is all zeros over a store whose service reports
    expenses. *)
Theorem facade_firestore_branch_diverges :
  (* operations the document-store services do not provide *)
  (forall u data w,
      fst (DatabaseContext.createTransaction (with_firestore u) data w)
      = Throw (not_a_function "createTransaction")
      /\ fst (DatabaseContext.createCategory (with_firestore u) data w)
         = Throw (not_a_function "createCategory")
      /\ fst (DatabaseContext.createBudgetGoal (with_firestore u) data w)
         = Throw (not_a_function "createBudgetGoal")
      /\ fst (DatabaseContext.getUserProfile (with_firestore u) w)
         = Throw (not_a_function "getUserProfile")
      /\ fst (DatabaseContext.updateUserProfile (with_firestore u) data w)
         = Throw (not_a_function "updateUserProfile"))
  (* what getTransactions returns from the document store is never a
     non-empty list *)
  /\ (forall u options w,
         match fst (DatabaseContext.getTransactions (with_firestore u) options w) with
         | Ok v => is_page v = true \/ v = VArr []
         | Throw _ => False
         end)
  (* one world, two backends *)
  /\ (let w := sample_world 3 100 in
      let period := VObj [("startDate", VDate 0%Z); ("endDate", VDate (now w))] in
      returns_array
        (fst (DatabaseContext.getTransactions (with_supabase u1) VUndefined w))
      = true
      /\ returns_array
           (fst (DatabaseContext.getTransactions (with_firestore u1) VUndefined w))
         = false
      /\ fst (DatabaseContext.getFinancialSummary (with_supabase u1) period w)
         = Ok (DatabaseContext.summary_value (Fin (of_Z 300)) (Fin (of_Z 120))
                                              (Fin (of_Z 180)))
      /\ fst (Firestore.getTransactionSummary "u1" None w)
         = Ok {| Firestore.income := 0%Qc; Firestore.expenses := of_Z 6;
                 Firestore.balance := of_Z (-6) |}
      /\ fst (DatabaseContext.getFinancialSummary (with_firestore u1) period w)
         = Ok (DatabaseContext.summary_value (Fin 0%Qc) (Fin 0%Qc) (Fin 0%Qc))).
Proof.
  split; [|split].
  - intros u data w. repeat split; reflexivity.
  - intros u options w.
    unfold DatabaseContext.getTransactions, with_firestore. simpl.
    unfold invoke. simpl. unfold Firestore.getTransactions.
    eff_step. destruct (fs_fault w); simpl; auto.
  - simpl. repeat split; vm_compute; reflexivity.
Qed.

(** *** Failures (C5) *)

(** C5, amended.  With both backends failing, every operation of the
    context other than migrateData makes at most one backend call and emits
    exactly one destructive toast; getTransactions, getCategories and
    getBudgetGoals then return the empty list, getFinancialSummary returns
    income 0, expenses 0 and balance 0, and every other operation throws.
    migrateData catches the failure too, and returns its failure result
    without a toast. *)
Theorem failures_become_toasts u dbt w name m args :
  backend_down w ->
  In (name, m)
     (DatabaseContext.value_ {| DatabaseContext.user := Some u;
                                DatabaseContext.databaseType := dbt |}) ->
  exists r w',
    m args w = (r, w')
    /\ if String.eqb name "migrateData"
       then r = Ok migration_failed /\ toasts w' = toasts w
       else one_destructive_toast w w'
            /\ (List.length (calls w') <= S (List.length (calls w)))%nat
            /\ failure_result name r.
Proof.
  intros [Hf Hs] Hin.
  destruct (fs_fault w) as [fault|] eqn:Hfault;
    [clear Hf|contradiction Hf; reflexivity].
  simpl in Hin.
  repeat (destruct Hin as [Hin|Hin]; [inversion Hin; subst; clear Hin|]);
    [..|contradiction]; cbv beta; simpl String.eqb; cbv iota.
  all: try (unfold_op; simpl; destruct dbt; failed_op Hfault Hs; fail).
  unfold DatabaseContext.migrateData. simpl. eff_step.
  sb_fails Hs. eff_step.
  match goal with |- context [String.eqb ?a ?b] => destruct (String.eqb a b) end;
    eff_step; [sb_fails Hs; eff_step|];
    eexists; eexists; (split; [reflexivity|]); simpl; auto.
Qed.

Lemma failures_become_toasts_witness :
  exists r w',
    DatabaseContext.createTransaction (with_supabase u1)
      (VObj [("title", VStr "Lunch")]) broken_world = (r, w')
    /\ one_destructive_toast broken_world w'
    /\ (List.length (calls w') <= 1)%nat
    /\ exists e, r = Throw e.
Proof.
  apply (@failures_become_toasts u1 DatabaseContext.supabase_ broken_world
           "createTransaction"
           (fun args => DatabaseContext.createTransaction (with_supabase u1)
                          (arg 0 args))
           [VObj [("title", VStr "Lunch")]]).
  - split; [discriminate|]. intros r. discriminate.
  - simpl. right. right. left. reflexivity.
Defined.

(** Against C5 as stated: the backend call of migrateData fails, and the
    operation neither emits a toast nor throws. *)
Lemma migrateData_is_silent :
  let r := DatabaseContext.migrateData (with_supabase u1) broken_world in
  error (supabase broken_world
           (DatabaseContext.with_ Single
              (DatabaseContext.with_ (Eq_ "id" (VStr "u1"))
                 (DatabaseContext.from "profiles" (Select "*"))))) <> None
  /\ calls (snd r) <> []
  /\ fst r = Ok migration_failed
  /\ toasts (snd r) = [].
Proof. vm_compute. repeat split; discriminate. Qed.

(** *** Insights (C6) *)

Lemma find_by_id (f : value -> bool) cats w :
  Forall is_object cats ->
  Eff.find (fun c => bind (prop "id" c) (fun id => ret (f id))) cats w
  = (Ok (List.find (fun c => f (get "id" c)) cats), w).
Proof.
  intros H. apply find_pure; auto.
Qed.

Lemma current_step_total cats row a c t w :
  Forall is_object cats ->
  has_amount row a ->
  exists t',
    AIInsights.current_step (VArr cats) (Fin c, t) row w
    = (Ok (Fin (c + (if Qc_ltb a 0 then Qcabs a else 0))%Qc, t'), w).
Proof.
  intros Hc Hrow. destruct row; simpl in Hrow; try contradiction.
  assert (Hp : prop "amount" (VObj props) w = (Ok (VNum (Fin a)), w)).
  { unfold prop, ret, get. rewrite Hrow. reflexivity. }
  unfold AIInsights.current_step. unfold bind at 1. rewrite Hp.
  cbn [toNumber ltb AIInsights.zero]. rewrite of_Z_0.
  destruct (Qc_ltb a 0).
  - destruct (truthy (get "category" (VObj props))).
    + eff_step. eexists. reflexivity.
    + unfold bind at 1. unfold bind at 1.
      rewrite find_by_id; auto.
      destruct (List.find _ cats) as [c0|]; [destruct (truthy c0)|];
        eff_step; eexists; reflexivity.
  - exists t. unfold ret. f_equal. f_equal. f_equal. f_equal. ring.
Qed.

Lemma spending_cons a r :
  spending (a :: r) = ((if Qc_ltb a 0 then Qcabs a else 0) + spending r)%Qc.
Proof.
  unfold spending. simpl. destruct (Qc_ltb a 0); simpl; ring.
Qed.

Lemma current_total cats rows amounts :
  Forall is_object cats ->
  Forall2 has_amount rows amounts ->
  forall c t w,
  exists t',
    foldM (AIInsights.current_step (VArr cats)) rows (Fin c, t) w
    = (Ok (Fin (c + spending amounts)%Qc, t'), w).
Proof.
  intros Hc. induction 1 as [|row a rows amounts Hrow _ IH]; intros c t w.
  - exists t. simpl. unfold ret. do 4 f_equal. unfold spending. simpl. ring.
  - cbn [foldM]. unfold bind at 1.
    destruct (@current_step_total cats row a c t w Hc Hrow) as [t1 E]. rewrite E.
    destruct (IH (c + (if Qc_ltb a 0 then Qcabs a else 0))%Qc t1 w) as [t' E'].
    rewrite E'. exists t'. do 4 f_equal. rewrite spending_cons. ring.
Qed.

Lemma mapM_amounts rows amounts w :
  Forall2 has_amount rows amounts ->
  mapM (fun t => bind (prop "amount" t) (fun a => ret (toNumber a))) rows w
  = (Ok (map Fin amounts), w).
Proof.
  induction 1 as [|row a rows amounts Hrow _ IH]; simpl; auto.
  assert (Hp : bind (prop "amount" row) (fun a => ret (toNumber a)) w
               = (Ok (Fin a), w)).
  { destruct row; simpl in Hrow; try contradiction.
    unfold bind, prop, ret, get. rewrite Hrow. reflexivity. }
  unfold bind at 1. rewrite Hp. unfold bind at 1. rewrite IH. reflexivity.
Qed.

Lemma previous_fold amounts acc :
  fold_left (fun sum a => add sum (abs a))
            (filter (fun a => ltb a AIInsights.zero) (map Fin amounts)) (Fin acc)
  = Fin (acc + spending amounts)%Qc.
Proof.
  revert acc. induction amounts as [|a r IH]; intros acc.
  - simpl. f_equal. unfold spending. simpl. ring.
  - rewrite spending_cons. simpl. rewrite of_Z_0.
    destruct (Qc_ltb a 0); simpl; rewrite IH; f_equal; ring.
Qed.

Lemma previous_total_rows rows amounts w :
  Forall2 has_amount rows amounts ->
  AIInsights.previous_total (VArr rows) w = (Ok (Fin (spending amounts)), w).
Proof.
  intros H. unfold AIInsights.previous_total. unfold bind at 1.
  rewrite (@mapM_amounts rows amounts w H). unfold ret. unfold AIInsights.zero at 2.
  rewrite of_Z_0, previous_fold. do 3 f_equal. ring.
Qed.

Lemma monthly_change_fin C P :
  AIInsights.monthly_change (Fin C) (Fin P) = Fin (change C P).
Proof.
  unfold AIInsights.monthly_change, change, gtb, AIInsights.zero. simpl.
  rewrite of_Z_0. destruct (Qc_ltb 0 P) eqn:E; auto.
  unfold sub, div. simpl.
  destruct (Qc_eqb P 0) eqn:Z.
  - apply Qc_eqb_eq in Z. subst. discriminate.
  - reflexivity.
Qed.

Lemma context_getTransactions_range u a b rows w :
  supabase w (range_request a b) = answers rows ->
  exists w',
    DatabaseContext.getTransactions (with_supabase u)
      (VObj [("startDate", VDate a); ("endDate", VDate b)]) w
    = (Ok (VArr rows), w')
    /\ supabase w' = supabase w /\ now w' = now w.
Proof.
  intros H. unfold DatabaseContext.getTransactions. simpl. eff_step.
  unfold toISOString.
  change (supabase w _) with (supabase w (range_request a b)).
  rewrite H. eff_step. eexists. split; [reflexivity|]. simpl. auto.
Qed.

Lemma context_getCategories u rows w :
  supabase w categories_request = answers rows ->
  exists w',
    DatabaseContext.getCategories (with_supabase u) w = (Ok (VArr rows), w')
    /\ supabase w' = supabase w /\ now w' = now w.
Proof.
  intros H. unfold DatabaseContext.getCategories. simpl. eff_step.
  change (supabase w _) with (supabase w categories_request).
  rewrite H. eff_step. eexists. split; [reflexivity|]. simpl. auto.
Qed.

Lemma invoke_getTransactions st options :
  invoke (DatabaseContext.value_ st) "getTransactions" [options]
  = DatabaseContext.getTransactions st options.
Proof. reflexivity. Qed.

Lemma invoke_getCategories st :
  invoke (DatabaseContext.value_ st) "getCategories" []
  = DatabaseContext.getCategories st.
Proof. reflexivity. Qed.

(** C6.  Over the rows the context returns for the current and the
    previous month, the insights report a month-over-month change of
    ((currentMonthTotal - previousMonthTotal) / previousMonthTotal) * 100
    when previousMonthTotal is positive and of 0 otherwise, each total being
    the sum of the absolute values of the negative amounts of its month. *)
Theorem monthly_change_formula u s w cur prev cats cur_amounts prev_amounts :
  let today := now w in
  supabase w (range_request (startOfMonth today) (endOfMonth today))
  = answers cur ->
  supabase w (range_request (startOfMonth (subMonths today 1))
                            (endOfMonth (subMonths today 1)))
  = answers prev ->
  supabase w categories_request = answers cats ->
  Forall is_object cats ->
  Forall2 has_amount cur cur_amounts ->
  Forall2 has_amount prev prev_amounts ->
  exists s' w',
    AIInsights.generateInsights (DatabaseContext.value_ (with_supabase u)) s w
    = (Ok s', w')
    /\ AIInsights.error s' = None
    /\ AIInsights.monthlyChange (AIInsights.insights s')
       = Fin (change (spending cur_amounts) (spending prev_amounts)).
Proof.
  intros today Hcur Hprev Hcats Hobj Hca Hpa.
  unfold AIInsights.generateInsights.
  unfold bind at 1. unfold try_catch. unfold bind at 1. unfold get_now. fold today.
  unfold bind at 1. rewrite invoke_getTransactions.
  destruct (context_getTransactions_range u _ _ w Hcur) as [w1 [E1 [S1 N1]]].
  rewrite E1. clear E1.
  unfold bind at 1. rewrite invoke_getTransactions.
  rewrite <- S1 in Hprev, Hcats.
  destruct (context_getTransactions_range u _ _ w1 Hprev) as [w2 [E2 [S2 N2]]].
  rewrite E2. clear E2.
  unfold bind at 1. rewrite invoke_getCategories.
  rewrite <- S2 in Hcats.
  destruct (context_getCategories u w2 Hcats) as [w3 [E3 [S3 N3]]].
  rewrite E3. clear E3.
  unfold bind at 1. unfold forEach.
  destruct (@current_total cats cur cur_amounts Hobj Hca 0%Qc [] w3) as [t' Et].
  match type of Et with
  | ?L = _ =>
      match goal with
      | |- context [foldM ?f cur ?i w3] => change (foldM f cur i w3) with L
      end
  end.
  rewrite Et. clear Et.
  destruct (AIInsights.top_category t') as [topName topAmount].
  unfold bind at 1. rewrite (previous_total_rows w3 Hpa).
  rewrite Qcplus_0_l. rewrite monthly_change_fin.
  unfold bind at 1.
  match goal with |- context [if ?c then ret ?x else ?y] =>
    destruct c; [|match goal with |- context [if ?c then ret ?x else ?y] =>
                    destruct c end] end;
    eff_step; eexists; eexists; (split; [reflexivity|]); simpl; auto.
Qed.

Lemma monthly_change_formula_witness :
  exists s' w',
    AIInsights.generateInsights (DatabaseContext.value_ (with_supabase u1))
                                AIInsights.initial_state (sample_world 3 100)
    = (Ok s', w')
    /\ AIInsights.error s' = None
    /\ AIInsights.monthlyChange (AIInsights.insights s')
       = Fin (change (spending [of_Z 300; of_Z (-120)]) (spending [of_Z (-80)])).
Proof.
  apply (@monthly_change_formula u1 AIInsights.initial_state (sample_world 3 100)
           [sample_row 300; sample_row (-120)] [sample_row (-80)]
           [VObj [("id", VNum (Fin (of_Z 1))); ("name", VStr "Food");
                  ("type", VStr "expense")]]).
  - reflexivity.
  - reflexivity.
  - reflexivity.
  - repeat constructor.
  - repeat constructor.
  - repeat constructor.
Defined.

(** In the sample, 120 spent after 80 is a rise of 50 percent. *)
Example sample_change :
  change (spending [of_Z 300; of_Z (-120)]) (spending [of_Z (-80)]) = of_Z 50.
Proof. evaluate. Qed.

End Aggregates.

Section Pagination.
Local Open Scope nat_scope.

(** *** Order *)

(** * The order of the transactions query *)

Lemma string_ltb_lt a b : String.ltb a b = true <-> String_as_OT.lt a b.
Proof.
  unfold String.ltb. rewrite <- String_as_OT.cmp_lt. unfold String_as_OT.cmp.
  destruct (String.compare a b); split; congruence.
Qed.

Lemma string_ltb_irrefl a : String.ltb a a = false.
Proof.
  destruct (String.ltb a a) eqn:E; auto.
  apply string_ltb_lt in E. exfalso. eapply String_as_OT.lt_not_eq; eauto.
  reflexivity.
Qed.

Lemma string_ltb_trans a b c :
  String.ltb a b = true -> String.ltb b c = true -> String.ltb a c = true.
Proof.
  rewrite !string_ltb_lt. apply String_as_OT.lt_trans.
Qed.

Lemma string_ltb_total a b : a <> b -> String.ltb a b = false -> String.ltb b a = true.
Proof.
  unfold String.ltb. intros N H. rewrite String.compare_antisym.
  destruct (String.compare a b) eqn:E; simpl; auto; try discriminate.
  apply String.compare_eq_iff in E. contradiction.
Qed.

Lemma precedes_irrefl a : Firestore.precedes a a = false.
Proof.
  unfold Firestore.precedes. rewrite Z.ltb_irrefl, string_ltb_irrefl.
  rewrite andb_false_r. reflexivity.
Qed.

Lemma precedes_trans a b c : before a b -> before b c -> before a c.
Proof.
  unfold before, Firestore.precedes.
  rewrite !orb_true_iff, !andb_true_iff, !Z.ltb_lt, !Z.eqb_eq.
  intros [H1|[H1 S1]] [H2|[H2 S2]].
  - left. lia.
  - left. lia.
  - left. lia.
  - right. split; [lia|]. eapply string_ltb_trans; eauto.
Qed.

Lemma precedes_asym a b : before a b -> Firestore.precedes b a = false.
Proof.
  intros H. destruct (Firestore.precedes b a) eqn:E; auto.
  pose proof (precedes_trans H E) as C. unfold before in C.
  rewrite precedes_irrefl in C. discriminate.
Qed.

Lemma precedes_total a b :
  doc_id a <> doc_id b -> Firestore.precedes a b = false -> before b a.
Proof.
  unfold before, Firestore.precedes.
  rewrite orb_false_iff, andb_false_iff, orb_true_iff, andb_true_iff.
  rewrite !Z.ltb_ge, Z.ltb_lt, Z.eqb_neq, Z.eqb_eq.
  intros N [H1 [H2|H2]].
  - left. lia.
  - destruct (Z.eq_dec (tx_transactionDate (doc_data a))
                       (tx_transactionDate (doc_data b))).
    + right. split; [lia|]. apply string_ltb_total; auto.
    + left. lia.
Qed.

(** * Ordered results *)

Lemma insert_doc_sorted d l :
  StronglySorted before l ->
  Forall (fun x => doc_id x <> doc_id d) l ->
  StronglySorted before (Firestore.insert_doc d l).
Proof.
  induction 1 as [|x r Hr IH Hx]; intros Hd; simpl.
  - repeat constructor.
  - inversion Hd as [|? ? Nx Nr]; subst.
    destruct (Firestore.precedes x d) eqn:E.
    + constructor; auto.
      apply (Permutation_Forall (Permutation_sym (insert_doc_perm d r))).
      constructor; auto.
    + assert (B : before d x) by (apply precedes_total; auto).
      constructor; [constructor; auto|].
      constructor; auto.
      eapply Forall_impl; [|exact Hx]. intros y Hy. eapply precedes_trans; eauto.
Qed.

Lemma order_docs_sorted l :
  NoDup (map (@doc_id _) l) -> StronglySorted before (Firestore.order_docs l).
Proof.
  induction l as [|d r IH]; simpl; intros H.
  - constructor.
  - inversion H as [|? ? Hn Hr]; subst.
    apply insert_doc_sorted; auto.
    apply (Permutation_Forall (Permutation_sym (order_docs_perm r))).
    apply Forall_forall. intros x Hx E. apply Hn. rewrite <- E.
    apply in_map. exact Hx.
Qed.

Lemma NoDup_map_filter {A B} (f : A -> B) (p : A -> bool) l :
  NoDup (map f l) -> NoDup (map f (filter p l)).
Proof.
  induction l as [|a r IH]; simpl; intros H; auto.
  inversion H as [|? ? Hn Hr]; subst.
  destruct (p a); simpl; auto.
  constructor; auto. intros C. apply Hn.
  apply in_map_iff in C. destruct C as [x [E Hx]].
  apply filter_In in Hx. rewrite <- E. apply in_map. tauto.
Qed.

Lemma tx_selected_sorted q db :
  NoDup (map (@doc_id _) (transactions db)) ->
  StronglySorted before (Firestore.tx_selected q db).
Proof.
  intros H. apply order_docs_sorted. apply NoDup_map_filter. exact H.
Qed.

(** * Cursors *)

Lemma sorted_around A d B :
  StronglySorted before (A ++ d :: B) ->
  Forall (fun a => before a d) A /\ Forall (before d) B.
Proof.
  induction A as [|a r IH]; simpl; intros H.
  - inversion H; subst. auto.
  - inversion H as [|? ? Hs Hf]; subst. destruct (IH Hs) as [F1 F2].
    split; auto. constructor; auto.
    apply Forall_app in Hf. destruct Hf as [_ Hf]. inversion Hf; auto.
Qed.

Lemma filter_none {A} (p : A -> bool) l :
  Forall (fun x => p x = false) l -> filter p l = [].
Proof.
  induction 1 as [|x r Hx _ IH]; simpl; auto. rewrite Hx. exact IH.
Qed.

Lemma filter_all {A} (p : A -> bool) l :
  Forall (fun x => p x = true) l -> filter p l = l.
Proof.
  induction 1 as [|x r Hx _ IH]; simpl; auto. rewrite Hx, IH. reflexivity.
Qed.

(** Starting after a document of a sorted result gives what follows it. *)
Lemma start_after A d B :
  StronglySorted before (A ++ d :: B) ->
  filter (Firestore.precedes d) (A ++ d :: B) = B.
Proof.
  intros H. destruct (sorted_around _ _ _ H) as [F1 F2].
  rewrite filter_app. simpl. rewrite precedes_irrefl.
  rewrite filter_none, filter_all; auto.
  eapply Forall_impl; [|exact F1]. intros a Ha. apply precedes_asym; auto.
Qed.

(** *** Replay *)

Section Replay.
Variable userId : string.
Variable f : TransactionsTable.Filters.
Variable db : FirestoreDb.
Hypothesis distinct_ids : NoDup (map (@doc_id _) (transactions db)).

Let L := listed userId f db.
Local Abbreviation after := (Spec.after userId f db).
Local Abbreviation page_query := (Spec.page_query userId f db).

Lemma run_page c :
  Firestore.run_tx_query (page_query c) db
  = firstn TransactionsTable.pageSize (after c).
Proof. destruct c; reflexivity. Qed.

Lemma L_sorted : StronglySorted before L.
Proof. apply tx_selected_sorted. exact distinct_ids. Qed.

Lemma last_of_nil : last_of [] = None.
Proof. reflexivity. Qed.

Lemma last_of_snoc l d : last_of (l ++ [d]) = Some d.
Proof. unfold last_of. rewrite map_app. simpl. apply last_last. Qed.

(** One page further. *)
Lemma next_cursor c o :
  after c = skipn o L ->
  L = [] \/ o < List.length L ->
  after (last_of (firstn TransactionsTable.pageSize (after c)))
  = skipn (o + TransactionsTable.pageSize) L.
Proof.
  intros Inv Hlen. rewrite Inv.
  destruct (firstn TransactionsTable.pageSize (skipn o L)) as [|x r] eqn:P.
  - rewrite last_of_nil. simpl. fold L.
    destruct Hlen as [E|Hlt].
    + rewrite E. rewrite skipn_nil. reflexivity.
    + exfalso. assert (Hn : skipn o L <> []).
      { intros C. apply skipn_all_iff in C. lia. }
      destruct (skipn o L); [congruence|]. discriminate.
  - assert (Hne : x :: r <> []) by discriminate.
    destruct (exists_last Hne) as [r' [d E]]. rewrite E in *.
    rewrite last_of_snoc. simpl. fold L.
    assert (D : L = (firstn o L ++ r')
                    ++ d :: skipn (o + TransactionsTable.pageSize) L).
    { rewrite <- (firstn_skipn o L) at 1.
      rewrite <- (firstn_skipn TransactionsTable.pageSize (skipn o L)).
      rewrite P, skipn_skipn. rewrite <- !app_assoc. simpl.
      rewrite (Nat.add_comm o). reflexivity. }
    pose proof L_sorted as S. rewrite D in S.
    rewrite D at 1. apply start_after. exact S.
Qed.

Lemma getTransactions_page c w :
  fdb w = db -> fs_fault w = None ->
  Firestore.getTransactions userId
    (Some (TransactionsTable.with_lastDoc
             (TransactionsTable.with_limit (TransactionsTable.base_options f)
                                           TransactionsTable.pageSize) c)) w
  = (Ok {| Firestore.page_transactions :=
             map Firestore.transaction_of_doc
                 (firstn TransactionsTable.pageSize (after c));
           Firestore.page_lastDoc :=
             last_of (firstn TransactionsTable.pageSize (after c)) |},
     log_call (Firestore (GetDocsTransactions (page_query c))) w).
Proof.
  intros Hdb Hf. unfold Firestore.getTransactions, try_catch, bind, firestore_call, ret.
  rewrite Hf, Hdb. fold (page_query c). rewrite run_page. reflexivity.
Qed.

Lemma replay_spec count :
  forall c o w,
    fdb w = db -> fs_fault w = None ->
    after c = skipn o L ->
    L = [] \/ count = 0
    \/ o + (count - 1) * TransactionsTable.pageSize < List.length L ->
    exists c' qs w',
      TransactionsTable.replay userId (TransactionsTable.base_options f) count c w
      = (Ok c', w')
      /\ fdb w' = db /\ fs_fault w' = None /\ toasts w' = toasts w
      /\ calls w' = calls w ++ map (fun q => Firestore (GetDocsTransactions q)) qs
      /\ List.length qs = count
      /\ chained db c qs
      /\ after c' = skipn (o + count * TransactionsTable.pageSize) L.
Proof.
  induction count as [|n IH]; intros c o w Hdb Hf Inv Hlen.
  - exists c, [], w. simpl. rewrite app_nil_r, Nat.add_0_r. repeat split; auto.
  - cbn [TransactionsTable.replay].
    assert (Q : (let tempOptions :=
                   TransactionsTable.with_limit (TransactionsTable.base_options f)
                                                TransactionsTable.pageSize in
                 match c with
                 | Some d => TransactionsTable.with_lastDoc tempOptions (Some d)
                 | None => tempOptions
                 end)
                = TransactionsTable.with_lastDoc
                    (TransactionsTable.with_limit (TransactionsTable.base_options f)
                                                  TransactionsTable.pageSize) c)
      by (destruct c; reflexivity).
    cbv zeta in Q. cbv zeta. rewrite Q. clear Q.
    unfold bind at 1. rewrite (@getTransactions_page c w Hdb Hf).
    cbn [Firestore.page_lastDoc].
    set (c1 := last_of (firstn TransactionsTable.pageSize (after c))).
    set (w1 := log_call (Firestore (GetDocsTransactions (page_query c))) w).
    assert (Inv1 : after c1 = skipn (o + TransactionsTable.pageSize) L).
    { apply next_cursor; auto. destruct Hlen as [E|[E|E]]; auto; [discriminate|].
      right. unfold TransactionsTable.pageSize in *. lia. }
    destruct (IH c1 (o + TransactionsTable.pageSize) w1)
      as (c' & qs & w' & E & D & F & T & C & N & Ch & I); auto.
    { destruct Hlen as [E|[E|E]]; auto; [discriminate|].
      destruct n; auto. right. right.
      unfold TransactionsTable.pageSize in *. simpl in *. lia. }
    exists c', (page_query c :: qs), w'. rewrite E.
    split; [reflexivity|]. split; [exact D|]. split; [exact F|].
    split; [exact T|]. split.
    { rewrite C. unfold w1. simpl. rewrite <- app_assoc. reflexivity. }
    split; [simpl; rewrite N; reflexivity|]. split.
    { cbn [chained]. split; [destruct c; reflexivity|].
      split; [destruct c; reflexivity|]. rewrite run_page. exact Ch. }
    rewrite I. f_equal. unfold TransactionsTable.pageSize. simpl. lia.
Qed.

End Replay.

(** *** Pagination (C3) *)

Lemma attach_all cats txs :
  forall w, fs_fault w = None ->
  exists twcs w' more,
    all (map (TransactionsTable.attach_category cats) txs) w = (Ok twcs, w')
    /\ map TransactionsTable.transaction twcs = txs
    /\ fs_fault w' = None /\ toasts w' = toasts w
    /\ calls w' = calls w ++ more.
Proof.
  induction txs as [|t r IH]; intros w Hf.
  - exists [], w, []. simpl. rewrite app_nil_r. auto.
  - cbn [map all].
    assert (H1 : exists twc w1 more1,
               TransactionsTable.attach_category cats t w = (Ok twc, w1)
               /\ TransactionsTable.transaction twc = t
               /\ fs_fault w1 = None /\ toasts w1 = toasts w
               /\ calls w1 = calls w ++ more1).
    { unfold TransactionsTable.attach_category.
      destruct (negb (String.eqb (tx_categoryId t) EmptyString)).
      - destruct (TransactionsTable.find_category (tx_categoryId t) cats).
        + eff_step. do 2 eexists. exists []. rewrite app_nil_r. auto.
        + unfold Firestore.getCategory. eff_step. rewrite Hf. eff_step.
          do 3 eexists. repeat split; reflexivity.
      - eff_step. do 2 eexists. exists []. rewrite app_nil_r. auto. }
    destruct H1 as (twc & w1 & more1 & E1 & T1 & F1 & To1 & C1).
    rewrite E1.
    destruct (IH w1 F1) as (twcs & w' & more & E & T & F & To & C).
    rewrite E. exists (twc :: twcs), w', (more1 ++ more).
    repeat split; auto.
    + simpl. congruence.
    + congruence.
    + rewrite C, C1, app_assoc. reflexivity.
Qed.

Lemma client_filter_off f l :
  TransactionsTable.search f = EmptyString ->
  TransactionsTable.amountRange f = "all"%string ->
  TransactionsTable.client_filter f l = l.
Proof.
  intros S A. unfold TransactionsTable.client_filter. rewrite S, A. reflexivity.
Qed.

(** The listing is the selection of the store, latest first. *)
Lemma listed_ordered userId f db :
  Permutation (listed userId f db)
              (filter (Firestore.tx_matches
                         (Firestore.tx_query userId
                            (Some (TransactionsTable.base_options f))))
                      (transactions db))
  /\ StronglySorted
       (fun a b => (tx_transactionDate (doc_data b)
                    <= tx_transactionDate (doc_data a))%Z)
       (listed userId f db).
Proof.
  split.
  - apply order_docs_perm.
  - unfold listed, Firestore.tx_selected.
    generalize (filter (Firestore.tx_matches
                          (Firestore.tx_query userId
                             (Some (TransactionsTable.base_options f))))
                       (transactions db)).
    intros l. induction l as [|d r IH]; simpl; [constructor|].
    revert IH. generalize (Firestore.order_docs r). clear r.
    induction l as [|x r IHr]; intros S; simpl.
    + repeat constructor.
    + inversion S as [|? ? Sr Fx]; subst.
      destruct (Firestore.precedes x d) eqn:E.
      * constructor; auto.
        apply (Permutation_Forall (Permutation_sym (insert_doc_perm d r))).
        constructor; auto.
        unfold Firestore.precedes in E.
        apply orb_true_iff in E. destruct E as [E|E].
        -- apply Z.ltb_lt in E. lia.
        -- apply andb_true_iff in E. destruct E as [E _]. apply Z.eqb_eq in E. lia.
      * assert (D : (tx_transactionDate (doc_data x)
                     <= tx_transactionDate (doc_data d))%Z).
        { unfold Firestore.precedes in E. apply orb_false_iff in E.
          destruct E as [E _]. apply Z.ltb_ge in E. exact E. }
        constructor; auto. constructor; auto.
        eapply Forall_impl; [|exact Fx]. simpl. intros y Hy. lia.
Qed.

(** C3, amended.  For a page number n > 1 asked without a kept cursor,
    with no search text and no amount range set, and for a user with more
    than (n - 2) * 10 transactions under the category and date filters (or
    with none), fetchTransactions first issues n - 1 queries of 10 records
    each, every one starting after the last document of the page before,
    and then displays the records that dropping (n - 1) * 10 and taking 10
    leaves of those transactions, latest first. *)
Theorem replay_reaches_offset userId st w :
  let n := TransactionsTable.currentPage st in
  let f := TransactionsTable.filters st in
  let L := listed userId f (fdb w) in
  fs_fault w = None ->
  NoDup (map (@doc_id _) (transactions (fdb w))) ->
  TransactionsTable.lastDoc st = None ->
  1 < n ->
  TransactionsTable.search f = EmptyString ->
  TransactionsTable.amountRange f = "all"%string ->
  L = [] \/ (n - 2) * TransactionsTable.pageSize < List.length L ->
  exists st' w' qs rest,
    TransactionsTable.fetchTransactions userId st w = (Ok st', w')
    /\ calls w' = calls w ++ map (fun q => Firestore (GetDocsTransactions q)) qs ++ rest
    /\ List.length qs = n - 1
    /\ chained (fdb w) None qs
    /\ toasts w' = toasts w
    /\ displayed st'
       = map Firestore.transaction_of_doc (page_of TransactionsTable.pageSize n L).
Proof.
  intros n f L Hf Hids Hlast Hn Hsearch Hrange Hlen.
  unfold TransactionsTable.fetchTransactions.
  rewrite Hlast. fold n f.
  assert (Hb : (1 <? n) = true) by (apply Nat.ltb_lt; exact Hn). rewrite Hb.
  destruct (@replay_spec userId f (fdb w) Hids (n - 1) None 0 w eq_refl Hf eq_refl)
    as (c' & qs & w1 & E & D & F & T & C & N & Ch & I).
  { destruct Hlen as [H|H]; auto. right. right. simpl.
    replace (n - 1 - 1) with (n - 2) by lia. exact H. }
  unfold bind at 1. unfold try_catch. unfold bind at 1. unfold bind at 1.
  rewrite E. unfold ret at 1.
  unfold bind at 1.
  assert (Q : TransactionsTable.with_lastDoc (TransactionsTable.base_options f) c'
              = TransactionsTable.with_lastDoc
                  (TransactionsTable.with_limit (TransactionsTable.base_options f)
                                                TransactionsTable.pageSize) c')
    by reflexivity.
  rewrite Q. rewrite (@getTransactions_page userId f (fdb w) c' w1 D F).
  cbn [Firestore.page_transactions Firestore.page_lastDoc].
  set (w2 := log_call _ w1).
  destruct (@attach_all (TransactionsTable.categories st)
              (map Firestore.transaction_of_doc
                   (firstn TransactionsTable.pageSize (Spec.after userId f (fdb w) c')))
              w2 F)
    as (twcs & w3 & more & E3 & T3 & F3 & To3 & C3).
  cbn [TransactionsTable.set_lastDoc TransactionsTable.categories
       TransactionsTable.filters TransactionsTable.currentPage
       TransactionsTable.lastDoc].
  unfold bind at 1. rewrite E3. unfold ret.
  eexists. exists w3, qs. eexists. split; [reflexivity|].
  split.
  { rewrite C3. unfold w2. simpl. rewrite C. rewrite <- !app_assoc. reflexivity. }
  split; [exact N|]. split; [exact Ch|].
  split.
  { rewrite To3. unfold w2. simpl. exact T. }
  unfold displayed. cbn [TransactionsTable.set_loading TransactionsTable.transactions].
  fold f. rewrite client_filter_off; auto.
  rewrite T3. unfold page_of. rewrite I. simpl. reflexivity.
Qed.

Lemma sample_ids_distinct :
  NoDup (map (@doc_id _) (transactions (sample_db 12 100))).
Proof.
  vm_compute.
  repeat (apply NoDup_cons; [simpl; intuition discriminate|]).
  apply NoDup_nil.
Qed.

Lemma replay_reaches_offset_witness :
  exists st' w' qs rest,
    TransactionsTable.fetchTransactions
      "u1"%string (at_page 2 TransactionsTable.default_filters) (sample_world 12 100)
    = (Ok st', w')
    /\ calls w' = map (fun q => Firestore (GetDocsTransactions q)) qs ++ rest
    /\ List.length qs = 1
    /\ chained (sample_db 12 100) None qs
    /\ toasts w' = []
    /\ displayed st'
       = map Firestore.transaction_of_doc
             (page_of 10 2 (listed "u1"%string TransactionsTable.default_filters
                                   (sample_db 12 100))).
Proof.
  apply (@replay_reaches_offset
           "u1"%string (at_page 2 TransactionsTable.default_filters)
           (sample_world 12 100)).
  - reflexivity.
  - exact sample_ids_distinct.
  - reflexivity.
  - simpl. lia.
  - reflexivity.
  - reflexivity.
  - right. vm_compute. lia.
Defined.

(** Against C3 as stated.  With ten transactions, the second replayed
    query of a third page comes back empty and leaves no cursor, and the
    page displayed is the first one; with an amount range set, the page
    displayed is what the range keeps of the slice. *)
Lemma replay_counterexample :
  (exists st',
      fst (TransactionsTable.fetchTransactions
             "u1"%string (at_page 3 TransactionsTable.default_filters)
             (sample_world 10 100)) = Ok st'
      /\ List.length (displayed st') = 10
      /\ displayed st'
         <> map Firestore.transaction_of_doc
                (page_of 10 3 (listed "u1"%string TransactionsTable.default_filters
                                      (sample_db 10 100))))
  /\ (exists st',
         fst (TransactionsTable.fetchTransactions
                "u1"%string (at_page 2 large_amounts_only)
                (sample_world 12 100)) = Ok st'
         /\ displayed st' = []
         /\ displayed st'
            <> map Firestore.transaction_of_doc
                   (page_of 10 2 (listed "u1"%string large_amounts_only
                                         (sample_db 12 100)))).
Proof.
  split; eexists; (split; [vm_compute; reflexivity|]);
    (split; [reflexivity|]);
    intros H; apply (f_equal (@List.length _)) in H; vm_compute in H;
    discriminate.
Qed.

End Pagination.
